(** * Recipe Nutrition Filter

    A model of [09_streamlit_app.py]: the connection provider, the
    reference-data loaders, the query builder and executor
    [search_recipes], and the result presenter (display projection and
    CSV export) of the page script.

    Conventions of the model.
    - Python integers are [Z]; the slider values handed to
      [search_recipes] are integers.  A numeric value of the store is a
      rational [Q]; a float cell [VFloat q] of a frame is the float read
      from the value [q].  What numpy computes on floats (rounding to
      decimals, the cast to an integer, the text of a float) is not
      modelled: these operations are parameters of the presenter.
    - The text of the statement is built exactly as the f-strings build
      it, and the text is all the store receives.  The model reads the
      statements of this application back from the text: the interpolated
      numbers, the id lists and the quoted category literal (inside a
      quoted literal a doubled quote stands for one quote and a single
      quote ends the literal), and also the disjunction that a category
      string with a quote can add after the category comparison.  It
      reads a literal only when its value is made of ASCII letters,
      digits, spaces and quotes: a percent sign, a colon or a backslash
      may be rewritten on the way to the server.  What the server answers
      to any other text is a component of the store, about which nothing
      is assumed.
    - LOWER depends on the locale of the server and ORDER BY v.calories
      leaves the order of rows of equal calories open: both are
      components of the store as well.
    - The name [engine] is a module-level global of the script that no
      statement of the file binds; every function that uses it takes it
      as a parameter here. *)

From Stdlib Require Import ZArith QArith Qround String Ascii.
From Stdlib Require Import DecimalString DecimalZ DecimalPos List Sorted.
From stdpp Require Import gmap strings.

Local Open Scope Z_scope.

(* ================================================================= *)
(** * Definitions *)

(* ----------------------------------------------------------------- *)
(** ** Python strings *)

(** [str(n)] for an integer: decimal digits, a leading minus sign when
    negative, no leading zeros. *)
Definition str (z : Z) : string := NilZero.string_of_int (Z.to_int z).

(** [sep.join(items)] *)
Definition join (sep : string) (items : list string) : string :=
  String.concat sep items.

(** Truth value of a list and of an optional string in a condition:
    [None], the empty list and the empty string are false. *)
Definition truthy_list {A} (l : list A) : bool :=
  match l with [] => false | _ => true end.

Definition truthy_str (s : option string) : bool :=
  match s with
  | None => false
  | Some EmptyString => false
  | Some _ => true
  end.

(* ----------------------------------------------------------------- *)
(** ** The statement text of [search_recipes] *)

(** Fixed pieces of the f-strings, between the interpolated fields. *)
Definition allergen_open : string :=
"
            AND NOT EXISTS (
                SELECT 1 FROM recipe_allergens ra
                WHERE ra.recipe_id = r.recipe_id
                AND ra.allergen_id IN (".

Definition diet_open : string :=
"
            AND EXISTS (
                SELECT 1 FROM recipe_diet_labels rdl
                WHERE rdl.recipe_id = r.recipe_id
                AND rdl.label_id IN (".

Definition in_close : string :=
")
            )
        ".

Definition category_open : string := "AND LOWER(c.category_name) = LOWER('".
Definition category_close : string := "')".

Definition select_from : string :=
"
    SELECT 
        v.recipe_id,
        v.name,
        v.url,
        v.calories,
        v.pct_carbs,
        v.pct_fat,
        v.pct_protein,
        c.category_name,
        r.rating
    FROM recipe_macro_pct v
    JOIN recipes r ON r.recipe_id = v.recipe_id
    LEFT JOIN categories c ON c.category_id = r.category_id
    WHERE v.calories BETWEEN ".

Definition between_and : string := " AND ".

Definition and_carbs : string :=
"
      AND v.pct_carbs BETWEEN ".

Definition and_fat : string :=
"
      AND v.pct_fat BETWEEN ".

Definition and_protein : string :=
"
      AND v.pct_protein BETWEEN ".

Definition clause_sep : string :=
"
      ".

Definition order_by : string :=
"
    ORDER BY v.calories
    ".

(** The sentinel entry of the category drop-down. *)
Definition all_categories : string := "All Categories".

(** Lines 68-77. *)
Definition allergen_clause (exclude_allergen_ids : list Z) : string :=
  if truthy_list exclude_allergen_ids && (0 <? length exclude_allergen_ids)%nat
  then
    let allergen_ids_str := join "," (map str exclude_allergen_ids) in
    allergen_open +:+ allergen_ids_str +:+ in_close
  else "".

(** Lines 80-82. *)
Definition category_clause (category : option string) : string :=
  match category with
  | Some c =>
      if truthy_str category && negb (String.eqb c all_categories)
      then category_open +:+ c +:+ category_close
      else ""
  | None => ""
  end.

(** Lines 85-94. *)
Definition diet_clause (diet_label_ids : list Z) : string :=
  if truthy_list diet_label_ids && (0 <? length diet_label_ids)%nat
  then
    let label_ids_str := join "," (map str diet_label_ids) in
    diet_open +:+ label_ids_str +:+ in_close
  else "".

(** Lines 97-119: the main f-string. *)
Definition query_text
    (cal_min cal_max carb_target fat_target prot_target margin : Z)
    (category : option string)
    (exclude_allergen_ids diet_label_ids : list Z) : string :=
  select_from +:+ str cal_min +:+ between_and +:+ str cal_max +:+
  and_carbs +:+ str (carb_target - margin) +:+ between_and +:+
                str (carb_target + margin) +:+
  and_fat +:+ str (fat_target - margin) +:+ between_and +:+
              str (fat_target + margin) +:+
  and_protein +:+ str (prot_target - margin) +:+ between_and +:+
                  str (prot_target + margin) +:+
  clause_sep +:+ category_clause category +:+
  clause_sep +:+ allergen_clause exclude_allergen_ids +:+
  clause_sep +:+ diet_clause diet_label_ids +:+
  order_by.

(* ----------------------------------------------------------------- *)
(** ** Values of pandas *)

Inductive cell :=
| VInt (z : Z)
| VFloat (q : Q)
| VStr (s : string)
| VNaN.

Record DataFrame := {
  columns : list string;
  rows : list (list cell)
}.

(** [pd.DataFrame()] *)
Definition empty_frame : DataFrame := {| columns := []; rows := [] |}.

(** A call either returns a value or raises; the exception is kept as its
    message. *)
Inductive outcome (A : Type) :=
| Returned (a : A)
| Raised (e : string).
Arguments Returned {A} a.
Arguments Raised {A} e.

(* ----------------------------------------------------------------- *)
(** ** The relational store *)

(** The view [recipe_macro_pct] and the tables the statement reads. *)
Record macro_row := {
  v_recipe_id : Z;
  v_name : string;
  v_url : string;
  v_calories : Q;
  v_pct_carbs : Q;
  v_pct_fat : Q;
  v_pct_protein : Q
}.

Record recipe := {
  r_recipe_id : Z;
  r_category_id : option Z;
  r_rating : option Q
}.

Record category_row := {
  c_category_id : Z;
  c_category_name : string
}.

(** An association row: (recipe id, allergen id or label id). *)
Definition link : Type := Z * Z.

(** One row of the statement's result: the nine selected columns. *)
Record result_row := {
  recipe_id : Z;
  name : string;
  url : string;
  calories : Q;
  pct_carbs : Q;
  pct_fat : Q;
  pct_protein : Q;
  category_name : option string;
  rating : option Q
}.

(** The store: the tables, and what its server decides.  [sql_lower] is
    LOWER under the locale of the server; [tie_rank] settles the order
    of two result rows of equal calories (the lower rank first);
    [other_statement] is the answer of the server to a statement text
    that the model does not read. *)
Record database := {
  recipe_macro_pct : list macro_row;
  recipes : list recipe;
  categories : list category_row;
  recipe_allergens : list link;
  recipe_diet_labels : list link;
  sql_lower : string -> string;
  tie_rank : result_row -> Z;
  other_statement : string -> outcome DataFrame
}.

(** What is read back from a statement text: the bounds of the four
    BETWEEN conditions, the category literal when the LOWER comparison is
    present, the two literals of a comparison [OR ('a'='b')] when one
    follows the category comparison, and the id list of each sub-select
    when that sub-select is present. *)
Record statement := {
  s_calories : Z * Z;
  s_carbs : Z * Z;
  s_fat : Z * Z;
  s_protein : Z * Z;
  s_category : option string;
  s_disjunct : option (string * string);
  s_not_allergens : option (list Z);
  s_any_label : option (list Z)
}.

(** *** Reading a statement text *)

Fixpoint strip_prefix (p s : string) : option string :=
  match p with
  | EmptyString => Some s
  | String a p' =>
      match s with
      | String b s' => if Ascii.eqb a b then strip_prefix p' s' else None
      | EmptyString => None
      end
  end.

(** Longest prefix of [s] whose characters satisfy [ok], and the rest. *)
Fixpoint span (ok : ascii -> bool) (s : string) : string * string :=
  match s with
  | String a s' =>
      if ok a then let '(tok, rest) := span ok s' in (String a tok, rest)
      else (EmptyString, s)
  | EmptyString => (EmptyString, EmptyString)
  end.

Definition is_digit (a : ascii) : bool :=
  let n := nat_of_ascii a in (48 <=? n)%nat && (n <=? 57)%nat.

Definition is_num_char (a : ascii) : bool :=
  is_digit a || Ascii.eqb a "-".

Definition is_list_char (a : ascii) : bool :=
  is_num_char a || Ascii.eqb a ",".

(** An integer literal. *)
Definition int_of_token (tok : string) : option Z :=
  match NilZero.int_of_string tok with
  | Some d => Some (Z.of_int d)
  | None => None
  end.

Definition read_int (s : string) : option (Z * string) :=
  let '(tok, rest) := span is_num_char s in
  match int_of_token tok with
  | Some z => Some (z, rest)
  | None => None
  end.

(** [lo AND hi] of a BETWEEN condition. *)
Definition read_range (s : string) : option (Z * Z * string) :=
  match read_int s with
  | Some (lo, s1) =>
      match strip_prefix between_and s1 with
      | Some s2 =>
          match read_int s2 with
          | Some (hi, s3) => Some (lo, hi, s3)
          | None => None
          end
      | None => None
      end
  | None => None
  end.

(** Split at every occurrence of [sep]; [acc] holds the current field
    reversed. *)
Fixpoint split_on_go (sep : ascii) (acc : string) (s : string) : list string :=
  match s with
  | EmptyString => [acc]
  | String a s' =>
      if Ascii.eqb a sep then acc :: split_on_go sep EmptyString s'
      else split_on_go sep (acc +:+ String a EmptyString) s'
  end.

Definition split_on (sep : ascii) (s : string) : list string :=
  split_on_go sep EmptyString s.

Fixpoint ints_of_tokens (toks : list string) : option (list Z) :=
  match toks with
  | [] => Some []
  | t :: ts =>
      match int_of_token t, ints_of_tokens ts with
      | Some z, Some zs => Some (z :: zs)
      | _, _ => None
      end
  end.

(** The id list of an IN: one integer literal or more, separated by
    commas.  An empty list is not a list of literals and is refused. *)
Definition read_ids (s : string) : option (list Z * string) :=
  let '(tok, rest) := span is_list_char s in
  match ints_of_tokens (split_on "," tok) with
  | Some ids => Some (ids, rest)
  | None => None
  end.

(** The body of a quoted string literal, after its opening quote: a
    doubled quote stands for one quote character, a single quote ends the
    literal.  Returns the value and the text after the closing quote. *)
Fixpoint read_literal (s : string) : option (string * string) :=
  match s with
  | EmptyString => None
  | String a s' =>
      if Ascii.eqb a "'" then
        match s' with
        | String b s'' =>
            if Ascii.eqb b "'" then
              match read_literal s'' with
              | Some (v, rest) => Some (String "'" v, rest)
              | None => None
              end
            else Some (EmptyString, s')
        | EmptyString => Some (EmptyString, EmptyString)
        end
      else
        match read_literal s' with
        | Some (v, rest) => Some (String a v, rest)
        | None => None
        end
  end.

(** Every character of [s] satisfies [ok]. *)
Fixpoint all_chars (ok : ascii -> bool) (s : string) : bool :=
  match s with
  | EmptyString => true
  | String a s' => ok a && all_chars ok s'
  end.

Definition is_letter (a : ascii) : bool :=
  let n := nat_of_ascii a in
  ((65 <=? n) && (n <=? 90) || (97 <=? n) && (n <=? 122))%nat.

(** The characters of a name that reaches the server as it is written:
    ASCII letters, digits and the space. *)
Definition plain_char (a : ascii) : bool :=
  is_letter a || is_digit a || Ascii.eqb a " ".

Definition plain (s : string) : bool := all_chars plain_char s.

(** A literal is read when its value holds plain characters and quotes
    only. *)
Definition read_plain_literal (s : string) : option (string * string) :=
  match read_literal s with
  | Some (v, rest) =>
      if all_chars (fun a => plain_char a || Ascii.eqb a "'") v
      then Some (v, rest) else None
  | None => None
  end.

(** The comparison of two literals that may follow the category
    comparison: [ OR ('a'='b')]. *)
Definition read_disjunct (s : string)
  : option (option (string * string) * string) :=
  match strip_prefix " OR ('" s with
  | Some s1 =>
      match read_plain_literal s1 with
      | Some (a, s2) =>
          match strip_prefix "='" s2 with
          | Some s3 =>
              match read_plain_literal s3 with
              | Some (b, s4) =>
                  match strip_prefix ")" s4 with
                  | Some s5 => Some (Some (a, b), s5)
                  | None => None
                  end
              | None => None
              end
          | None => None
          end
      | None => None
      end
  | None => Some (None, s)
  end.

(** The optional category comparison, with the comparison of literals
    that may follow it. *)
Definition read_category (s : string)
  : option (option string * option (string * string) * string) :=
  match strip_prefix category_open s with
  | Some s1 =>
      match read_plain_literal s1 with
      | Some (v, s2) =>
          match strip_prefix ")" s2 with
          | Some s3 =>
              match read_disjunct s3 with
              | Some (d, s4) => Some (Some v, d, s4)
              | None => None
              end
          | None => None
          end
      | None => None
      end
  | None => Some (None, None, s)
  end.

(** An optional sub-select that starts with [opening]. *)
Definition read_subselect (opening s : string)
  : option (option (list Z) * string) :=
  match strip_prefix opening s with
  | Some s1 =>
      match read_ids s1 with
      | Some (ids, s2) =>
          match strip_prefix in_close s2 with
          | Some s3 => Some (Some ids, s3)
          | None => None
          end
      | None => None
      end
  | None => Some (None, s)
  end.

(** The four BETWEEN conditions, up to the end of the protein range. *)
Definition read_where (text : string)
  : option ((Z * Z) * (Z * Z) * (Z * Z) * (Z * Z) * string) :=
  s0 ← strip_prefix select_from text;
  '(cal_lo, cal_hi, s1) ← read_range s0;
  s2 ← strip_prefix and_carbs s1;
  '(carb_lo, carb_hi, s3) ← read_range s2;
  s4 ← strip_prefix and_fat s3;
  '(fat_lo, fat_hi, s5) ← read_range s4;
  s6 ← strip_prefix and_protein s5;
  '(prot_lo, prot_hi, s7) ← read_range s6;
  Some ((cal_lo, cal_hi), (carb_lo, carb_hi), (fat_lo, fat_hi),
        (prot_lo, prot_hi), s7).

(** The optional conditions and the ORDER BY, to the end of the text. *)
Definition read_filters (s : string)
  : option (option string * option (string * string) *
            option (list Z) * option (list Z)) :=
  s1 ← strip_prefix clause_sep s;
  '(cat, disjunct, s2) ← read_category s1;
  s3 ← strip_prefix clause_sep s2;
  '(allergens, s4) ← read_subselect allergen_open s3;
  s5 ← strip_prefix clause_sep s4;
  '(labels, s6) ← read_subselect diet_open s5;
  s7 ← strip_prefix order_by s6;
  match s7 with
  | EmptyString => Some (cat, disjunct, allergens, labels)
  | _ => None
  end.

(** The statement a text is, when the model reads it. *)
Definition parse_statement (text : string) : option statement :=
  '(cal, carbs, fat, prot, s) ← read_where text;
  '(cat, disjunct, allergens, labels) ← read_filters s;
  Some {| s_calories := cal;
          s_carbs := carbs;
          s_fat := fat;
          s_protein := prot;
          s_category := cat;
          s_disjunct := disjunct;
          s_not_allergens := allergens;
          s_any_label := labels |}.

(** *** Evaluating a statement *)

(** [x BETWEEN lo AND hi], both ends included. *)
Definition between (x : Q) (bounds : Z * Z) : bool :=
  Qle_bool (inject_Z (fst bounds)) x && Qle_bool x (inject_Z (snd bounds)).

(** [LEFT JOIN categories c ON c.category_id = r.category_id]: every
    matching category, or one row with no category when none matches. *)
Definition left_join_categories (db : database) (r : recipe)
  : list (option category_row) :=
  match r_category_id r with
  | Some k =>
      match List.filter (fun c => c_category_id c =? k) (categories db) with
      | [] => [None]
      | cs => map Some cs
      end
  | None => [None]
  end.

Definition joined : Type := macro_row * recipe * option category_row.

(** [FROM recipe_macro_pct v JOIN recipes r ON r.recipe_id = v.recipe_id
    LEFT JOIN categories c ...] *)
Definition from_clause (db : database) : list joined :=
  flat_map (fun v =>
    flat_map (fun r => map (fun c => (v, r, c)) (left_join_categories db r))
             (List.filter (fun r => r_recipe_id r =? v_recipe_id v)
                          (recipes db)))
    (recipe_macro_pct db).

(** [EXISTS (SELECT 1 FROM links l WHERE l.recipe_id = rid AND l.id IN ids)] *)
Definition exists_link (links : list link) (rid : Z) (ids : list Z) : bool :=
  existsb (fun l => (fst l =? rid) && existsb (Z.eqb (snd l)) ids) links.

(** [LOWER(c.category_name) = LOWER('lit')]; not true when the recipe has
    no category. *)
Definition category_matches (db : database) (c : option category_row)
    (lit : string) : bool :=
  match c with
  | Some c => String.eqb (sql_lower db (c_category_name c)) (sql_lower db lit)
  | None => false
  end.

(** The WHERE clause.  AND binds tighter than OR: a comparison of
    literals after the category comparison is an alternative to the four
    ranges and the category together, and the sub-selects that follow
    belong to that alternative. *)
Definition where_clause (st : statement) (db : database) (j : joined) : bool :=
  let '(v, r, c) := j in
  let ranges_and_category :=
    between (v_calories v) (s_calories st) &&
    between (v_pct_carbs v) (s_carbs st) &&
    between (v_pct_fat v) (s_fat st) &&
    between (v_pct_protein v) (s_protein st) &&
    match s_category st with
    | Some lit => category_matches db c lit
    | None => true
    end in
  let subselects :=
    match s_not_allergens st with
    | Some ids => negb (exists_link (recipe_allergens db) (r_recipe_id r) ids)
    | None => true
    end &&
    match s_any_label st with
    | Some ids => exists_link (recipe_diet_labels db) (r_recipe_id r) ids
    | None => true
    end in
  match s_disjunct st with
  | Some (a, b) => ranges_and_category || (String.eqb a b && subselects)
  | None => ranges_and_category && subselects
  end.

Definition select_columns (j : joined) : result_row :=
  let '(v, r, c) := j in
  {| recipe_id := v_recipe_id v;
     name := v_name v;
     url := v_url v;
     calories := v_calories v;
     pct_carbs := v_pct_carbs v;
     pct_fat := v_pct_fat v;
     pct_protein := v_pct_protein v;
     category_name := option_map c_category_name c;
     rating := r_rating r |}.

(** [ORDER BY v.calories]: ascending calories; among rows of equal
    calories, the order the server gives them. *)
Definition comes_before (db : database) (x y : result_row) : bool :=
  match (calories x ?= calories y)%Q with
  | Lt => true
  | Gt => false
  | Eq => tie_rank db x <=? tie_rank db y
  end.

Fixpoint insert_by_calories (db : database) (x : result_row)
    (l : list result_row) : list result_row :=
  match l with
  | [] => [x]
  | y :: l' =>
      if comes_before db x y then x :: l
      else y :: insert_by_calories db x l'
  end.

Definition order_by_calories (db : database) (l : list result_row)
  : list result_row :=
  fold_right (insert_by_calories db) [] l.

Definition execute (st : statement) (db : database) : list result_row :=
  order_by_calories db
    (map select_columns (List.filter (where_clause st db) (from_clause db))).

(* ----------------------------------------------------------------- *)
(** ** pandas *)

Definition result_columns : list string :=
  ["recipe_id"; "name"; "url"; "calories"; "pct_carbs"; "pct_fat";
   "pct_protein"; "category_name"; "rating"].

Definition cell_of_str (s : option string) : cell :=
  match s with Some s => VStr s | None => VNaN end.

Definition cell_of_num (q : option Q) : cell :=
  match q with Some q => VFloat q | None => VNaN end.

Definition cells_of_row (r : result_row) : list cell :=
  [VInt (recipe_id r); VStr (name r); VStr (url r); VFloat (calories r);
   VFloat (pct_carbs r); VFloat (pct_fat r); VFloat (pct_protein r);
   cell_of_str (category_name r); cell_of_num (rating r)].

Definition frame_of_rows (rs : list result_row) : DataFrame :=
  {| columns := result_columns; rows := map cells_of_row rs |}.

(** The engine the global name [engine] is bound to. *)
Inductive engine :=
| Connected (db : database)
| Unavailable (reason : string).

(** [pd.read_sql(query, engine)]: only the text reaches the store.  A
    text the model reads is evaluated over the tables; for any other
    text the answer is that of the server. *)
Definition read_sql (query : string) (eng : engine) : outcome DataFrame :=
  match eng with
  | Connected db =>
      match parse_statement query with
      | Some st => Returned (frame_of_rows (execute st db))
      | None => other_statement db query
      end
  | Unavailable reason => Raised reason
  end.

Fixpoint map_outcome {A B} (f : A -> outcome B) (l : list A)
  : outcome (list B) :=
  match l with
  | [] => Returned []
  | x :: l' =>
      match f x with
      | Returned y =>
          match map_outcome f l' with
          | Returned ys => Returned (y :: ys)
          | Raised e => Raised e
          end
      | Raised e => Raised e
      end
  end.

(** *** Columns by label *)

Fixpoint index_of (label : string) (cols : list string) : option nat :=
  match cols with
  | [] => None
  | c :: cols' =>
      if String.eqb c label then Some 0%nat
      else option_map S (index_of label cols')
  end.

Fixpoint indexes_of (labels cols : list string) : option (list nat) :=
  match labels with
  | [] => Some []
  | l :: ls =>
      match index_of l cols, indexes_of ls cols with
      | Some i, Some rest => Some (i :: rest)
      | _, _ => None
      end
  end.

(** [df[[labels]]]: a new frame with the named columns, in that order. *)
Definition frame_getitem_list (labels : list string) (df : DataFrame)
  : outcome DataFrame :=
  match indexes_of labels (columns df) with
  | Some idx =>
      Returned {| columns := labels;
                  rows := map (fun r => map (fun i => nth i r VNaN) idx)
                              (rows df) |}
  | None => Raised "KeyError: not in index"
  end.

(** [df[label]]: the column as a series. *)
Definition frame_getitem (label : string) (df : DataFrame)
  : outcome (list cell) :=
  match index_of label (columns df) with
  | Some i => Returned (map (fun r => nth i r VNaN) (rows df))
  | None => Raised ("KeyError: " +:+ label)
  end.

Fixpoint set_nth {A} (i : nat) (x : A) (l : list A) : list A :=
  match l, i with
  | [], _ => []
  | _ :: l', O => x :: l'
  | y :: l', S i' => y :: set_nth i' x l'
  end.

Fixpoint zip_with {A B C} (f : A -> B -> C) (l : list A) (k : list B)
  : list C :=
  match l, k with
  | x :: l', y :: k' => f x y :: zip_with f l' k'
  | _, _ => []
  end.

(** [df[label] = series]: replaces the column when the label exists,
    appends a column otherwise. *)
Definition frame_setitem (label : string) (s : list cell) (df : DataFrame)
  : outcome DataFrame :=
  if negb (length s =? length (rows df))%nat then
    Raised "ValueError: Length of values does not match length of index"
  else
    match index_of label (columns df) with
    | Some i =>
        Returned {| columns := columns df;
                    rows := zip_with (fun r c => set_nth i c r) (rows df) s |}
    | None =>
        Returned {| columns := columns df ++ [label];
                    rows := zip_with (fun r c => r ++ [c]) (rows df) s |}
    end.

(** [df.columns = labels] *)
Definition frame_set_columns (labels : list string) (df : DataFrame)
  : outcome DataFrame :=
  if (length labels =? length (columns df))%nat then
    Returned {| columns := labels; rows := rows df |}
  else Raised "ValueError: Length mismatch".

(* ----------------------------------------------------------------- *)
(** ** Objects, the page, and the effects of the script *)

(** What the script has put on the page so far. *)
Inductive widget :=
| st_error (body : string)
| st_success (body : string)
| st_warning (body : string)
| st_markdown (body : string)
| st_dataframe (data : DataFrame)
| st_download_button (label data file_name mime : string)
| st_divider
| st_caption (body : string).

(** DataFrames are objects: a variable holds a reference, and an
    assignment through one reference is seen through every other. *)
Record world := {
  heap : gmap positive DataFrame;
  page : list widget
}.

Definition App (A : Type) : Type := world -> outcome A * world.

Definition ret {A} (a : A) : App A := fun w => (Returned a, w).

Definition bind {A B} (m : App A) (k : A -> App B) : App B :=
  fun w =>
    match m w with
    | (Returned a, w') => k a w'
    | (Raised e, w') => (Raised e, w')
    end.

Notation "x <- m ;; k" := (bind m (fun x => k))
  (at level 100, m at next level, right associativity).
Notation "m ;;; k" := (bind m (fun _ => k))
  (at level 100, right associativity).

(** The result of a call that may raise. *)
Definition lift {A} (o : outcome A) : App A := fun w => (o, w).

(** [try: body  except Exception as e: handler(e)] *)
Definition try_except {A} (body : App A) (handler : string -> App A) : App A :=
  fun w =>
    match body w with
    | (Returned a, w') => (Returned a, w')
    | (Raised e, w') => handler e w'
    end.

Definition emit (x : widget) : App unit :=
  fun w => (Returned tt, {| heap := heap w; page := page w ++ [x] |}).

(** Binding a newly created object. *)
Definition new_object (df : DataFrame) : App positive :=
  fun w =>
    let r := fresh (dom (heap w)) in
    (Returned r, {| heap := <[r := df]> (heap w); page := page w |}).

Definition deref (r : positive) : App DataFrame :=
  fun w =>
    match heap w !! r with
    | Some df => (Returned df, w)
    | None => (Raised "NameError", w)
    end.

(** In-place change of the object behind [r]. *)
Definition update (r : positive) (f : DataFrame -> outcome DataFrame)
  : App unit :=
  fun w =>
    match heap w !! r with
    | Some df =>
        match f df with
        | Returned df' =>
            (Returned tt, {| heap := <[r := df']> (heap w); page := page w |})
        | Raised e => (Raised e, w)
        end
    | None => (Raised "NameError", w)
    end.

(** [df[[labels]]] and [df.copy()] make a new object. *)
Definition getitem_list (r : positive) (labels : list string) : App positive :=
  df <- deref r ;;
  df' <- lift (frame_getitem_list labels df) ;;
  new_object df'.

Definition copy (r : positive) : App positive :=
  df <- deref r ;;
  new_object df.

Definition set_columns (r : positive) (labels : list string) : App unit :=
  update r (frame_set_columns labels).

Definition getitem (r : positive) (label : string) : App (list cell) :=
  df <- deref r ;;
  lift (frame_getitem label df).

Definition setitem (r : positive) (label : string) (s : list cell) : App unit :=
  update r (frame_setitem label s).

Definition len (r : positive) : App nat :=
  df <- deref r ;;
  ret (length (rows df)).

(* ----------------------------------------------------------------- *)
(** ** [search_recipes] (lines 63-126) *)

Definition search_recipes (eng : engine)
    (cal_min cal_max carb_target fat_target prot_target margin : Z)
    (category : option string)
    (exclude_allergen_ids diet_label_ids : list Z) : App DataFrame :=
  let query :=
    query_text cal_min cal_max carb_target fat_target prot_target margin
               category exclude_allergen_ids diet_label_ids in
  try_except
    (df <- lift (read_sql query eng) ;;
     ret df)
    (fun e =>
       emit (st_error ("Query failed: " +:+ e)) ;;;
       ret empty_frame).

(* ----------------------------------------------------------------- *)
(** ** The result presenter (lines 279-342) *)

Definition display_labels : list string :=
  ["Recipe Name"; "Calories"; "Carbs %"; "Fat %"; "Protein %";
   "Category"; "Rating"; "URL"].

(** Line 324. *)
Definition file_name (cal_min cal_max : Z) : string :=
  "recipe_results_" +:+ str cal_min +:+ "-" +:+ str cal_max +:+ "cal.csv".

Definition no_results_help : string :=
"
    - Increase the margin of error
    - Widen the calorie range
    - Remove diet preferences
    - Remove allergen exclusions
    - Select 'All Categories'
    ".

Definition disclaimer : string :=
  "Disclaimer: This tool is for educational use only. All recipes and content belong to their respective authors and AllRecipes.com".

(** The exception of [round] on a column that is not numeric. *)
Definition type_error : string :=
  "TypeError: Expected numeric dtype, got object instead.".

Definition is_number (c : cell) : bool :=
  match c with VInt _ | VFloat _ => true | _ => false end.

Definition is_str (c : cell) : bool :=
  match c with VStr _ => true | _ => false end.

(** The dtype of a column: numeric when it holds a number and no string
    (a missing value among numbers is NaN); a column of strings, and a
    column in which every value is missing, is an object column. *)
Definition numeric_dtype (s : list cell) : bool :=
  existsb is_number s && negb (existsb is_str s).

Section Presenter.

(** Arithmetic on floats is left open: [np_round d x] is [x] rounded to
    [d] decimals as numpy rounds a float, [np_int x] is the integer that
    [astype(int)] makes of [x], and [float_repr x] is the text pandas
    writes for [x]. *)
Variable np_round : nat -> Q -> Q.
Variable np_int : Q -> Z.
Variable float_repr : Q -> string.

Definition round_cell (d : nat) (c : cell) : cell :=
  match c with
  | VFloat q => VFloat (np_round d q)
  | _ => c
  end.

(** [series.round(d)] *)
Definition series_round (d : nat) (s : list cell) : outcome (list cell) :=
  if numeric_dtype s then Returned (map (round_cell d) s)
  else Raised type_error.

Definition int_cell (c : cell) : outcome cell :=
  match c with
  | VInt z => Returned (VInt z)
  | VFloat q => Returned (VInt (np_int q))
  | VNaN =>
      Raised "IntCastingNaNError: Cannot convert non-finite values (NA or inf) to integer"
  | VStr _ => Raised "ValueError: invalid literal for int()"
  end.

(** [series.astype(int)] *)
Definition series_astype_int (s : list cell) : outcome (list cell) :=
  map_outcome int_cell s.

(** Lines 284-300: the display projection. *)
Definition display_df (results_df : positive) : App positive :=
  selection <- getitem_list results_df
    ["name"; "calories"; "pct_carbs"; "pct_fat"; "pct_protein";
     "category_name"; "rating"; "url"] ;;
  display_df <- copy selection ;;
  set_columns display_df display_labels ;;;
  (s <- getitem display_df "Carbs %" ;;
   s <- lift (series_round 1 s) ;;
   setitem display_df "Carbs %" s) ;;;
  (s <- getitem display_df "Fat %" ;;
   s <- lift (series_round 1 s) ;;
   setitem display_df "Fat %" s) ;;;
  (s <- getitem display_df "Protein %" ;;
   s <- lift (series_round 1 s) ;;
   setitem display_df "Protein %" s) ;;;
  (s <- getitem display_df "Calories" ;;
   s <- lift (series_round 0 s) ;;
   s <- lift (series_astype_int s) ;;
   setitem display_df "Calories" s) ;;;
  (s <- getitem display_df "Rating" ;;
   s <- lift (series_round 2 s) ;;
   setitem display_df "Rating" s) ;;;
  ret display_df.

Definition csv_field (c : cell) : string :=
  match c with
  | VInt z => str z
  | VFloat q => float_repr q
  | VStr s => s
  | VNaN => ""
  end.

Definition dquote : ascii := "034"%char.

Fixpoint needs_quotes (s : string) : bool :=
  match s with
  | EmptyString => false
  | String a s' =>
      Ascii.eqb a "," || Ascii.eqb a dquote || Ascii.eqb a "010" ||
      Ascii.eqb a "013" || needs_quotes s'
  end.

Fixpoint double_quotes (s : string) : string :=
  match s with
  | EmptyString => EmptyString
  | String a s' =>
      if Ascii.eqb a dquote then String dquote (String dquote (double_quotes s'))
      else String a (double_quotes s')
  end.

(** Minimal quoting: a field is quoted when it holds the delimiter, a
    quote or a line break. *)
Definition csv_quote (s : string) : string :=
  if needs_quotes s
  then String dquote (double_quotes s +:+ String dquote EmptyString)
  else s.

Definition csv_line (fields : list string) : string :=
  join "," (map csv_quote fields) +:+ String "010" EmptyString.

(** The records of the export: the header, then the rows. *)
Definition csv_records (df : DataFrame) : list (list string) :=
  columns df :: map (map csv_field) (rows df).

(** [df.to_csv(index=False)] *)
Definition frame_to_csv (df : DataFrame) : string :=
  String.concat "" (map csv_line (csv_records df)).

Definition to_csv (r : positive) : App string :=
  df <- deref r ;;
  ret (frame_to_csv df).

(** Lines 265-342: search, then show the results or the help text, then
    the footer. *)
Definition show_results (eng : engine)
    (cal_min cal_max carb_target fat_target prot_target margin : Z)
    (selected_category : string)
    (exclude_allergen_ids diet_label_ids : list Z) : App unit :=
  df <- search_recipes eng cal_min cal_max carb_target fat_target
          prot_target margin
          (if negb (String.eqb selected_category all_categories)
           then Some selected_category else None)
          exclude_allergen_ids diet_label_ids ;;
  results_df <- new_object df ;;
  n <- len results_df ;;
  (if (0 <? n)%nat then
     emit (st_success (str (Z.of_nat n) +:+ " recipes match your criteria")) ;;;
     display <- display_df results_df ;;
     shown <- deref display ;;
     emit (st_dataframe shown) ;;;
     csv <- to_csv display ;;
     emit (st_download_button "Download Results as CSV" csv
             (file_name cal_min cal_max) "text/csv")
   else
     emit (st_warning
       "No recipes found matching your criteria. Try adjusting your filters:") ;;;
     emit (st_markdown no_results_help)) ;;;
  emit st_divider ;;;
  emit (st_caption disclaimer).

End Presenter.

(* ----------------------------------------------------------------- *)
(** ** What a call of [search_recipes] asks for *)

(** [s] is empty or starts with a character that fails [ok]. *)
Definition stops (ok : ascii -> bool) (s : string) : Prop :=
  match s with
  | EmptyString => True
  | String a _ => ok a = false
  end.

(** The category the call filters on, if any (line 81). *)
Definition selected_category (category : option string) : option string :=
  match category with
  | Some c =>
      if truthy_str category && negb (String.eqb c all_categories)
      then Some c else None
  | None => None
  end.

(** The id list a sub-select is built from, if any (lines 69, 86). *)
Definition selected_ids (ids : list Z) : option (list Z) :=
  if truthy_list ids && (0 <? length ids)%nat then Some ids else None.

(** The statement the text of a call is meant to be. *)
Definition statement_of
    (cal_min cal_max carb_target fat_target prot_target margin : Z)
    (category : option string)
    (exclude_allergen_ids diet_label_ids : list Z) : statement :=
  {| s_calories := (cal_min, cal_max);
     s_carbs := (carb_target - margin, carb_target + margin);
     s_fat := (fat_target - margin, fat_target + margin);
     s_protein := (prot_target - margin, prot_target + margin);
     s_category := selected_category category;
     s_disjunct := None;
     s_not_allergens := selected_ids exclude_allergen_ids;
     s_any_label := selected_ids diet_label_ids |}.

(** A category argument whose string, if any, is made of plain
    characters. *)
Definition plain_category (category : option string) : Prop :=
  forall c, category = Some c -> plain c = true.

(** [lo <= x <= hi] *)
Definition within (x : Q) (lo hi : Z) : Prop :=
  (inject_Z lo <= x)%Q /\ (x <= inject_Z hi)%Q.

Definition calories_le (a b : result_row) : Prop :=
  (calories a <= calories b)%Q.

(** The association rows of one recipe that carry one of [ids]. *)
Definition linked (links : list link) (rid : Z) (ids : list Z) (l : link)
  : Prop :=
  In l links /\ fst l = rid /\ In (snd l) ids.

(** [LOWER] of a server under the C locale: ASCII letters only. *)
Definition lower_char (a : ascii) : ascii :=
  let n := nat_of_ascii a in
  if (65 <=? n)%nat && (n <=? 90)%nat then ascii_of_nat (n + 32) else a.

Fixpoint lower (s : string) : string :=
  match s with
  | EmptyString => EmptyString
  | String a s' => String (lower_char a) (lower s')
  end.

Definition empty_database : database :=
  {| recipe_macro_pct := []; recipes := []; categories := [];
     recipe_allergens := []; recipe_diet_labels := [];
     sql_lower := lower; tie_rank := fun _ => 0;
     other_statement := fun _ => Raised "syntax error" |}.

(** The tables behind an engine. *)
Definition store_of (eng : engine) : database :=
  match eng with
  | Connected db => db
  | Unavailable _ => empty_database
  end.

Section Filter.

Variable eng : engine.
Variables cal_min cal_max carb_target fat_target prot_target margin : Z.
Variable category : option string.
Variables exclude_allergen_ids diet_label_ids : list Z.

(** The matching clauses of a filter, for one result row.  A category is
    selected when the string is present, not empty, and not the
    sentinel; two names match without regard to case when LOWER of the
    store makes them equal. *)
Definition satisfies_filter (r : result_row) : Prop :=
  within (calories r) cal_min cal_max /\
  within (pct_carbs r) (carb_target - margin) (carb_target + margin) /\
  within (pct_fat r) (fat_target - margin) (fat_target + margin) /\
  within (pct_protein r) (prot_target - margin) (prot_target + margin) /\
  (forall c, category = Some c -> c <> "" -> c <> all_categories ->
     exists n, category_name r = Some n /\
               sql_lower (store_of eng) n = sql_lower (store_of eng) c) /\
  (exclude_allergen_ids <> [] ->
     forall l, ~ linked (recipe_allergens (store_of eng)) (recipe_id r)
                        exclude_allergen_ids l) /\
  (diet_label_ids <> [] ->
     exists l, linked (recipe_diet_labels (store_of eng)) (recipe_id r)
                      diet_label_ids l).

(** [search_recipes] returns a frame, and every row of it satisfies the
    filter. *)
Definition rows_satisfy_filter (w : world) : Prop :=
  exists df w',
    search_recipes eng cal_min cal_max carb_target fat_target prot_target
      margin category exclude_allergen_ids diet_label_ids w
    = (Returned df, w') /\
    forall row, In row (rows df) ->
      exists r, row = cells_of_row r /\ satisfies_filter r.

End Filter.

(** *** A small store for examples

    Its server folds ASCII letters, keeps rows of equal calories in the
    order of the join, and refuses every statement the model does not
    read. *)

Definition pantry : database :=
  {| recipe_macro_pct :=
       [ {| v_recipe_id := 1; v_name := "Apple pie"; v_url := "https://example.org/1";
            v_calories := 650; v_pct_carbs := 52; v_pct_fat := 28;
            v_pct_protein := 20 |};
         {| v_recipe_id := 2; v_name := "Cake, big"; v_url := "https://example.org/2";
            v_calories := 3001 # 10; v_pct_carbs := 4537 # 100;
            v_pct_fat := 305 # 10; v_pct_protein := 2415 # 100 |};
         {| v_recipe_id := 3; v_name := "Soup"; v_url := "https://example.org/3";
            v_calories := 100; v_pct_carbs := 50; v_pct_fat := 30;
            v_pct_protein := 20 |} ];
     recipes :=
       [ {| r_recipe_id := 1; r_category_id := Some 10;
            r_rating := Some (4567 # 1000) |};
         {| r_recipe_id := 2; r_category_id := Some 11; r_rating := None |};
         {| r_recipe_id := 3; r_category_id := None;
            r_rating := Some (9 # 2) |} ];
     categories :=
       [ {| c_category_id := 10; c_category_name := "Dessert" |};
         {| c_category_id := 11; c_category_name := "Kids' Meals" |} ];
     recipe_allergens := [(1, 5)];
     recipe_diet_labels := [(2, 7)];
     sql_lower := lower;
     tie_rank := fun _ => 0;
     other_statement := fun _ => Raised "syntax error" |}.

(** The rows of the view of [pantry] as result rows. *)
Definition apple_pie : result_row :=
  {| recipe_id := 1; name := "Apple pie"; url := "https://example.org/1";
     calories := 650; pct_carbs := 52; pct_fat := 28; pct_protein := 20;
     category_name := Some "Dessert"; rating := Some (4567 # 1000) |}.

Definition cake : result_row :=
  {| recipe_id := 2; name := "Cake, big"; url := "https://example.org/2";
     calories := 3001 # 10; pct_carbs := 4537 # 100; pct_fat := 305 # 10;
     pct_protein := 2415 # 100;
     category_name := Some "Kids' Meals"; rating := None |}.

Definition soup : result_row :=
  {| recipe_id := 3; name := "Soup"; url := "https://example.org/3";
     calories := 100; pct_carbs := 50; pct_fat := 30; pct_protein := 20;
     category_name := None; rating := Some (9 # 2) |}.

(** The start of an interaction cycle: no object, an empty page. *)
Definition start : world := {| heap := ∅; page := [] |}.

(** *** Float operations for examples

    Exact decimal arithmetic, which numpy matches only up to the
    representation of the number as a float: rounding to the nearest
    multiple of [10^-d] with halves to the even neighbour, the integer
    part, and the shortest decimal digits (integer part, a point, and the
    fractional digits without trailing zeros, at least one). *)
Definition decimal_round (d : nat) (q : Q) : Q :=
  let x := (q * inject_Z (10 ^ Z.of_nat d))%Q in
  let f := Qfloor x in
  let n := match Qcompare (x - inject_Z f) (1 # 2) with
           | Lt => f
           | Gt => f + 1
           | Eq => if Z.even f then f else f + 1
           end in
  Qred (inject_Z n / inject_Z (10 ^ Z.of_nat d)).

Definition decimal_int (q : Q) : Z := Z.quot (Qnum q) (Z.pos (Qden q)).

Fixpoint fraction_digits (fuel : nat) (rem den : Z) : string :=
  match fuel with
  | O => EmptyString
  | S fuel' =>
      let r := rem * 10 in
      String (ascii_of_nat (48 + Z.to_nat (r / den)))
        (if r mod den =? 0 then EmptyString
         else fraction_digits fuel' (r mod den) den)
  end.

Definition decimal_repr (q : Q) : string :=
  let n := Z.abs (Qnum q) in
  let d := Z.pos (Qden q) in
  (if Qnum q <? 0 then "-" else "") +:+
  str (n / d) +:+ "." +:+ fraction_digits 17 (n mod d) d.

(* ----------------------------------------------------------------- *)
(** ** What the presenter shows *)

(** The columns picked from the raw result, before renaming and
    rounding. *)
Definition selection_labels : list string :=
  ["name"; "calories"; "pct_carbs"; "pct_fat"; "pct_protein";
   "category_name"; "rating"; "url"].

Definition selection_cells (r : result_row) : list cell :=
  [VStr (name r); VFloat (calories r); VFloat (pct_carbs r);
   VFloat (pct_fat r); VFloat (pct_protein r);
   cell_of_str (category_name r); cell_of_num (rating r); VStr (url r)].

(** Some row has a rating: the rating column of the frame is numeric. *)
Definition some_rating (rs : list result_row) : bool :=
  existsb (fun r => match rating r with Some _ => true | None => false end) rs.

Section Shown.

Variable np_round : nat -> Q -> Q.
Variable np_int : Q -> Z.

(** One row of the display projection. *)
Definition display_cells (r : result_row) : list cell :=
  [VStr (name r);
   VInt (np_int (np_round 0 (calories r)));
   VFloat (np_round 1 (pct_carbs r));
   VFloat (np_round 1 (pct_fat r));
   VFloat (np_round 1 (pct_protein r));
   cell_of_str (category_name r);
   cell_of_num (option_map (np_round 2) (rating r));
   VStr (url r)].

Definition display_frame (rs : list result_row) : DataFrame :=
  {| columns := display_labels; rows := map display_cells rs |}.

(** The same row before the rating is rounded. *)
Definition unrated_cells (r : result_row) : list cell :=
  [VStr (name r);
   VInt (np_int (np_round 0 (calories r)));
   VFloat (np_round 1 (pct_carbs r));
   VFloat (np_round 1 (pct_fat r));
   VFloat (np_round 1 (pct_protein r));
   cell_of_str (category_name r);
   cell_of_num (rating r);
   VStr (url r)].

End Shown.

(** A computation that assigns through no reference but [d]. *)
Definition only_writes {A} (d : positive) (m : App A) : Prop :=
  forall w o w', m w = (o, w') ->
    forall r, r <> d -> heap w' !! r = heap w !! r.


(* ----------------------------------------------------------------- *)
(** ** The join of the statement, row by row *)

(** [FROM recipe_macro_pct v JOIN recipes r ... LEFT JOIN categories c ...]
    pairs a row of the view with a recipe of the same id, and with each
    category the recipe refers to, or with none when it refers to no
    category of the table. *)
Definition joined_in (db : database) (v : macro_row) (r : recipe)
    (c : option category_row) : Prop :=
  In v (recipe_macro_pct db) /\
  In r (recipes db) /\
  r_recipe_id r = v_recipe_id v /\
  match c with
  | Some cat => In cat (categories db) /\
                r_category_id r = Some (c_category_id cat)
  | None => forall cat, In cat (categories db) ->
                        r_category_id r <> Some (c_category_id cat)
  end.

(* ----------------------------------------------------------------- *)
(** ** Reference data (lines 42-61) *)

(** A row of [allergens] or of [diet_labels]: the id and the display
    name. *)
Record lookup_row := {
  lookup_id : Z;
  lookup_name : string
}.

(** The two lookup tables of the store, which the search statement does
    not read. *)
Record lookups := {
  allergens : list lookup_row;
  diet_labels : list lookup_row
}.

(** [ORDER BY] on a name: a stable insertion sort; names compare byte by
    byte, which stands for the collation of the store. *)
Fixpoint insert_by_name {A} (key : A -> string) (x : A) (l : list A)
  : list A :=
  match l with
  | [] => [x]
  | y :: l' =>
      if String.leb (key x) (key y) then x :: l
      else y :: insert_by_name key x l'
  end.

Definition order_by_name {A} (key : A -> string) (l : list A) : list A :=
  fold_right (insert_by_name key) [] l.

(** The functions below are the bodies that run when the cached value is
    missing or has expired; the cache itself is not modelled. *)

(** Lines 43-47:
    [SELECT category_name FROM categories ORDER BY category_name], then
    the sentinel in front of the names. *)
Definition get_categories (eng : engine) : outcome (list string) :=
  match eng with
  | Connected db =>
      let df := order_by_name id (map c_category_name (categories db)) in
      Returned ([all_categories] ++ df)
  | Unavailable reason => Raised reason
  end.

(** Lines 50-54: [SELECT allergen_id, name FROM allergens ORDER BY name]. *)
Definition get_allergens (eng : engine) (tables : lookups)
  : outcome (list lookup_row) :=
  match eng with
  | Connected _ => Returned (order_by_name lookup_name (allergens tables))
  | Unavailable reason => Raised reason
  end.

(** Lines 57-61:
    [SELECT label_id, label_name FROM diet_labels ORDER BY label_name]. *)
Definition get_diet_labels (eng : engine) (tables : lookups)
  : outcome (list lookup_row) :=
  match eng with
  | Connected _ => Returned (order_by_name lookup_name (diet_labels tables))
  | Unavailable reason => Raised reason
  end.

(* ----------------------------------------------------------------- *)
(** ** From selected names to ids (lines 217-222 and 234-239) *)

(** [series.isin(values)] for one name. *)
Definition isin (values : list string) (s : string) : bool :=
  existsb (String.eqb s) values.

(** [ids = []; if selected: ids = df[df[name].isin(selected)][id].tolist()] *)
Definition resolve_ids (df : list lookup_row) (selected : list string)
  : list Z :=
  if truthy_list selected
  then map lookup_id
         (List.filter (fun r => isin selected (lookup_name r)) df)
  else [].

(* ----------------------------------------------------------------- *)
(** ** The connection provider (lines 20-37) *)

(** How a run of the script goes on after a call: with a value, or not at
    all ([st.stop()]). *)
Inductive flow (A : Type) :=
| Continues (a : A)
| Stops.
Arguments Continues {A} a.
Arguments Stops {A}.

Section Connection.

(** The secrets of the deployment, the message of the error raised for a
    missing secret, and [create_engine] are given from outside. *)
Variable secrets : gmap string string.
Variable missing_secret : string -> string.
Variable create_engine : string -> outcome engine.

(** [st.secrets[key]] *)
Definition secret (key : string) : outcome string :=
  match secrets !! key with
  | Some v => Returned v
  | None => Raised (missing_secret key)
  end.

(** [with engine.connect() as conn: conn.execute(text("SELECT 1"))] *)
Definition probe (eng : engine) : outcome unit :=
  match eng with
  | Connected _ => Returned tt
  | Unavailable reason => Raised reason
  end.

Definition get_database_connection : world -> flow engine * world :=
  fun w =>
    let attempt :=
      match secret "db_url" with
      | Returned db_url =>
          match create_engine db_url with
          | Returned eng =>
              match probe eng with
              | Returned _ => Returned eng
              | Raised e => Raised e
              end
          | Raised e => Raised e
          end
      | Raised e => Raised e
      end in
    match attempt with
    | Returned eng => (Continues eng, w)
    | Raised e =>
        (Stops,
         {| heap := heap w;
            page := page w ++
                    [st_error ("Database connection failed: " +:+ e)] |})
    end.

End Connection.

(* ================================================================= *)
(** * Lemmas *)

(** ** Strings *)

Lemma app_nil (b : string) : "" +:+ b = b.
Proof. reflexivity. Qed.

Lemma app_cons (x : ascii) (a b : string) :
  String x a +:+ b = String x (a +:+ b).
Proof. reflexivity. Qed.

Lemma app_assoc_s (a b c : string) : (a +:+ b) +:+ c = a +:+ b +:+ c.
Proof.
  induction a as [|x a IH]; [reflexivity |].
  rewrite !app_cons. now f_equal.
Qed.

Lemma app_empty_r (a : string) : a +:+ "" = a.
Proof.
  induction a as [|x a IH]; [reflexivity |].
  rewrite app_cons. now f_equal.
Qed.

Lemma strip_prefix_app (p r : string) : strip_prefix p (p +:+ r) = Some r.
Proof.
  induction p as [|a p IH]; [reflexivity |].
  rewrite app_cons. simpl. now rewrite Ascii.eqb_refl.
Qed.

Lemma span_app ok (a rest : string) :
  all_chars ok a = true -> stops ok rest -> span ok (a +:+ rest) = (a, rest).
Proof.
  induction a as [|x a IH]; intros Ha Hr.
  - rewrite app_nil. destruct rest as [|y rest]; simpl in *;
      [reflexivity | now rewrite Hr].
  - simpl in Ha. apply andb_true_iff in Ha as [Hx Ha].
    rewrite app_cons. simpl. now rewrite Hx, IH.
Qed.

Lemma all_chars_app ok (a b : string) :
  all_chars ok (a +:+ b) = all_chars ok a && all_chars ok b.
Proof.
  induction a as [|x a IH]; [reflexivity |].
  rewrite app_cons. simpl. now rewrite IH, andb_assoc.
Qed.

Lemma all_chars_weaken (ok ok' : ascii -> bool) (s : string) :
  (forall a, ok a = true -> ok' a = true) ->
  all_chars ok s = true -> all_chars ok' s = true.
Proof.
  intros Hw. induction s as [|x s IH]; simpl; [reflexivity |].
  rewrite !andb_true_iff. intros [Hx Hs]. auto.
Qed.

(** ** Decimal integers *)

Lemma uint_digits (d : Decimal.uint) :
  all_chars is_digit (NilEmpty.string_of_uint d) = true.
Proof. induction d; simpl; auto. Qed.

Lemma str_num_chars (z : Z) : all_chars is_num_char (str z) = true.
Proof.
  assert (Hu : forall d, all_chars is_num_char (NilZero.string_of_uint d) = true).
  { intros d. apply all_chars_weaken with (ok := is_digit).
    - intros a Ha. unfold is_num_char. now rewrite Ha.
    - destruct d; try apply uint_digits. reflexivity. }
  unfold str. destruct (Z.to_int z); simpl; auto.
Qed.

Lemma str_nonempty (z : Z) : str z <> "".
Proof.
  unfold str. destruct (Z.to_int z) as [d|d]; simpl; [|discriminate].
  destruct d; simpl; discriminate.
Qed.

Lemma int_of_token_str (z : Z) : int_of_token (str z) = Some z.
Proof.
  unfold int_of_token, str. rewrite NilZero.isi.
  - now rewrite DecimalZ.of_to.
  - destruct z; simpl; try discriminate.
    intros [= H]. now apply Unsigned.to_uint_nonnil in H.
  - destruct z; simpl; try discriminate.
    intros [= H]. now apply Unsigned.to_uint_nonnil in H.
Qed.

Lemma str_inj (a b : Z) : str a = str b -> a = b.
Proof.
  intros H. apply (f_equal int_of_token) in H.
  rewrite !int_of_token_str in H. congruence.
Qed.

Lemma read_int_str (z : Z) (rest : string) :
  stops is_num_char rest -> read_int (str z +:+ rest) = Some (z, rest).
Proof.
  intros H. unfold read_int.
  rewrite span_app by auto using str_num_chars.
  now rewrite int_of_token_str.
Qed.

Lemma read_range_str (lo hi : Z) (rest : string) :
  stops is_num_char rest ->
  read_range (str lo +:+ between_and +:+ str hi +:+ rest) = Some (lo, hi, rest).
Proof.
  intros H. unfold read_range.
  rewrite read_int_str by reflexivity.
  rewrite strip_prefix_app. now rewrite read_int_str.
Qed.

(** ** Id lists *)

Lemma split_on_go_last sep (acc s : string) :
  all_chars (fun a => negb (Ascii.eqb a sep)) s = true ->
  split_on_go sep acc s = [acc +:+ s].
Proof.
  revert acc. induction s as [|x s IH]; intros acc H; simpl in *.
  - now rewrite app_empty_r.
  - apply andb_true_iff in H as [Hx Hs]. apply negb_true_iff in Hx.
    rewrite Hx, IH by assumption. now rewrite app_assoc_s.
Qed.

Lemma split_on_go_field sep (acc s t : string) :
  all_chars (fun a => negb (Ascii.eqb a sep)) s = true ->
  split_on_go sep acc (s +:+ String sep t)
  = (acc +:+ s) :: split_on_go sep "" t.
Proof.
  revert acc. induction s as [|x s IH]; intros acc H.
  - rewrite app_nil, app_empty_r. simpl. now rewrite Ascii.eqb_refl.
  - simpl in H. apply andb_true_iff in H as [Hx Hs]. apply negb_true_iff in Hx.
    rewrite app_cons. simpl. rewrite Hx, IH by assumption.
    now rewrite app_assoc_s.
Qed.

Lemma str_no_comma (z : Z) :
  all_chars (fun a => negb (Ascii.eqb a ",")) (str z) = true.
Proof.
  apply all_chars_weaken with (ok := is_num_char); [| apply str_num_chars].
  intros a Ha. destruct (Ascii.eqb_spec a ","); [subst; discriminate | reflexivity].
Qed.

Lemma join_cons2 sep (x y : string) (l : list string) :
  join sep (x :: y :: l) = x +:+ sep +:+ join sep (y :: l).
Proof. reflexivity. Qed.

Lemma split_join_str (z : Z) (ids : list Z) :
  split_on "," (join "," (map str (z :: ids))) = map str (z :: ids).
Proof.
  unfold split_on. revert z. induction ids as [|y ids IH]; intros z.
  - simpl. now rewrite split_on_go_last by apply str_no_comma.
  - change (map str (z :: y :: ids)) with (str z :: map str (y :: ids)).
    change (str z :: map str (y :: ids))
      with (str z :: str y :: map str ids) at 1.
    rewrite join_cons2.
    change ("," +:+ join "," (str y :: map str ids))
      with (String "," (join "," (map str (y :: ids)))).
    rewrite split_on_go_field by apply str_no_comma.
    rewrite app_nil. now rewrite IH.
Qed.

Lemma ints_of_tokens_str (ids : list Z) :
  ints_of_tokens (map str ids) = Some ids.
Proof.
  induction ids as [|z ids IH]; simpl; [reflexivity |].
  now rewrite int_of_token_str, IH.
Qed.

Lemma join_list_chars (ids : list Z) :
  all_chars is_list_char (join "," (map str ids)) = true.
Proof.
  assert (Hs : forall z, all_chars is_list_char (str z) = true).
  { intros z. apply all_chars_weaken with (ok := is_num_char);
      [| apply str_num_chars].
    intros a Ha. unfold is_list_char. now rewrite Ha. }
  induction ids as [|z ids IH]; [reflexivity |].
  destruct ids as [|y ids]; [apply Hs |].
  change (map str (z :: y :: ids)) with (str z :: str y :: map str ids).
  rewrite join_cons2, !all_chars_app, Hs. simpl.
  exact IH.
Qed.

Lemma join_nonempty (z : Z) (ids : list Z) :
  join "," (map str (z :: ids)) <> "".
Proof.
  destruct ids as [|y ids]; simpl; [apply str_nonempty |].
  intros H. destruct (str z) eqn:E; [now apply str_nonempty in E |].
  discriminate.
Qed.

Lemma read_ids_join (z : Z) (ids : list Z) (rest : string) :
  stops is_list_char rest ->
  read_ids (join "," (map str (z :: ids)) +:+ rest) = Some (z :: ids, rest).
Proof.
  intros H. unfold read_ids.
  rewrite span_app by auto using join_list_chars.
  now rewrite split_join_str, ints_of_tokens_str.
Qed.

(** ** The category literal *)

Lemma plain_char_not_quote (a : ascii) :
  plain_char a = true -> Ascii.eqb a "'" = false.
Proof.
  intros H. destruct (Ascii.eqb_spec a "'") as [->|]; [| reflexivity].
  discriminate H.
Qed.

Lemma read_literal_plain (c rest : string) :
  plain c = true ->
  stops (fun a => Ascii.eqb a "'") rest ->
  read_literal (c +:+ String "'" rest) = Some (c, rest).
Proof.
  intros Hc Hr. induction c as [|x c IH].
  - rewrite app_nil. simpl. destruct rest as [|y rest]; [reflexivity |].
    simpl in Hr. now rewrite Hr.
  - unfold plain in Hc. simpl in Hc.
    apply andb_true_iff in Hc as [Hx Hc]. apply plain_char_not_quote in Hx.
    rewrite app_cons. simpl. rewrite Hx. now rewrite IH.
Qed.

Lemma read_plain_literal_plain (c rest : string) :
  plain c = true ->
  stops (fun a => Ascii.eqb a "'") rest ->
  read_plain_literal (c +:+ String "'" rest) = Some (c, rest).
Proof.
  intros Hc Hr. unfold read_plain_literal.
  rewrite read_literal_plain by assumption.
  rewrite (all_chars_weaken plain_char); [reflexivity | | exact Hc].
  intros a Ha. now rewrite Ha.
Qed.

(** ** Reading back the text of [search_recipes] *)

Lemma option_bind_Some {A B} (f : A -> option B) (x : A) :
  Some x ≫= f = f x.
Proof. reflexivity. Qed.

(** Continue with the value just read. *)
Ltac next_step := rewrite option_bind_Some; cbv beta match.

(** Consume a fixed piece at the head of the text. *)
Ltac strip_fixed :=
  match goal with
  | |- context [strip_prefix ?p (?p +:+ ?r)] => rewrite (strip_prefix_app p r)
  end.

Lemma read_where_query_text
    cal_min cal_max carb_target fat_target prot_target margin
    category exclude_allergen_ids diet_label_ids :
  read_where
    (query_text cal_min cal_max carb_target fat_target prot_target margin
                category exclude_allergen_ids diet_label_ids)
  = Some ((cal_min, cal_max),
          (carb_target - margin, carb_target + margin),
          (fat_target - margin, fat_target + margin),
          (prot_target - margin, prot_target + margin),
          clause_sep +:+ category_clause category +:+
          clause_sep +:+ allergen_clause exclude_allergen_ids +:+
          clause_sep +:+ diet_clause diet_label_ids +:+ order_by).
Proof.
  unfold read_where, query_text.
  do 4 (strip_fixed; next_step;
        rewrite read_range_str by reflexivity; next_step).
  reflexivity.
Qed.

Lemma read_subselect_absent (opening rest : string) :
  strip_prefix opening rest = None ->
  read_subselect opening ("" +:+ rest) = Some (None, rest).
Proof. intros H. unfold read_subselect. rewrite app_nil. now rewrite H. Qed.

Lemma read_subselect_present (opening : string) z ids (rest : string) :
  read_subselect opening
    ((opening +:+ join "," (map str (z :: ids)) +:+ in_close) +:+ rest)
  = Some (Some (z :: ids), rest).
Proof.
  unfold read_subselect.
  rewrite !app_assoc_s. strip_fixed.
  rewrite read_ids_join by reflexivity.
  strip_fixed. reflexivity.
Qed.

Lemma read_diet_clause (diet_label_ids : list Z) :
  read_subselect diet_open (diet_clause diet_label_ids +:+ order_by)
  = Some (selected_ids diet_label_ids, order_by).
Proof.
  destruct diet_label_ids as [|z ids].
  - now apply read_subselect_absent.
  - apply read_subselect_present.
Qed.

Lemma read_allergen_clause (exclude_allergen_ids diet_label_ids : list Z) :
  let rest := clause_sep +:+ diet_clause diet_label_ids +:+ order_by in
  read_subselect allergen_open (allergen_clause exclude_allergen_ids +:+ rest)
  = Some (selected_ids exclude_allergen_ids, rest).
Proof.
  intros rest. destruct exclude_allergen_ids as [|z ids].
  - apply read_subselect_absent. subst rest.
    destruct diet_label_ids; reflexivity.
  - apply read_subselect_present.
Qed.

Lemma read_category_clause (category : option string) (tail : string) :
  plain_category category ->
  let rest := clause_sep +:+ tail in
  read_category (category_clause category +:+ rest)
  = Some (selected_category category, None, rest).
Proof.
  intros Hq rest. unfold category_clause, selected_category in *.
  destruct category as [c|]; [| reflexivity].
  destruct (truthy_str (Some c) && negb (String.eqb c all_categories));
    [| reflexivity].
  unfold read_category, category_close.
  rewrite !app_assoc_s. strip_fixed.
  rewrite app_cons.
  rewrite read_plain_literal_plain; [reflexivity | now apply Hq | reflexivity].
Qed.

Lemma read_filters_query_text category exclude_allergen_ids diet_label_ids :
  plain_category category ->
  read_filters
    (clause_sep +:+ category_clause category +:+
     clause_sep +:+ allergen_clause exclude_allergen_ids +:+
     clause_sep +:+ diet_clause diet_label_ids +:+ order_by)
  = Some (selected_category category, None,
          selected_ids exclude_allergen_ids, selected_ids diet_label_ids).
Proof.
  intros Hq. unfold read_filters.
  strip_fixed. next_step.
  rewrite read_category_clause by assumption. next_step.
  strip_fixed. next_step.
  rewrite read_allergen_clause. next_step.
  strip_fixed. next_step.
  rewrite read_diet_clause. reflexivity.
Qed.

Lemma parse_query_text
    cal_min cal_max carb_target fat_target prot_target margin
    category exclude_allergen_ids diet_label_ids :
  plain_category category ->
  parse_statement
    (query_text cal_min cal_max carb_target fat_target prot_target margin
                category exclude_allergen_ids diet_label_ids)
  = Some (statement_of cal_min cal_max carb_target fat_target prot_target
                       margin category exclude_allergen_ids diet_label_ids).
Proof.
  intros Hq. unfold parse_statement.
  rewrite read_where_query_text. next_step.
  now rewrite read_filters_query_text.
Qed.

(** ** Evaluation of a statement *)

Lemma between_within (x : Q) (lo hi : Z) :
  between x (lo, hi) = true <-> within x lo hi.
Proof.
  unfold between, within. simpl.
  now rewrite andb_true_iff, !Qle_bool_iff.
Qed.

Lemma exists_link_linked (links : list link) (rid : Z) (ids : list Z) :
  exists_link links rid ids = true <-> exists l, linked links rid ids l.
Proof.
  unfold exists_link, linked. rewrite existsb_exists. split.
  - intros [l [Hl Hb]]. apply andb_true_iff in Hb as [Hr Hi].
    apply Z.eqb_eq in Hr. apply existsb_exists in Hi as [i [Hi He]].
    apply Z.eqb_eq in He. subst. now exists l.
  - intros [l [Hl [Hr Hi]]]. exists l. split; [assumption |].
    apply andb_true_iff. split; [now apply Z.eqb_eq |].
    apply existsb_exists. exists (snd l). split; [assumption |].
    apply Z.eqb_refl.
Qed.

Lemma exists_link_false (links : list link) (rid : Z) (ids : list Z) :
  exists_link links rid ids = false <-> forall l, ~ linked links rid ids l.
Proof.
  split.
  - intros H l Hl.
    assert (exists_link links rid ids = true)
      by (apply exists_link_linked; eauto).
    congruence.
  - intros H. destruct (exists_link links rid ids) eqn:E; [| reflexivity].
    apply exists_link_linked in E as [l Hl]. now destruct (H l).
Qed.

Lemma In_insert_by_calories db (x y : result_row) (l : list result_row) :
  In y (insert_by_calories db x l) <-> y = x \/ In y l.
Proof.
  induction l as [|z l IH]; simpl.
  - intuition.
  - destruct (comes_before db x z); simpl; rewrite ?IH; intuition.
Qed.

Lemma In_order_by_calories db (y : result_row) (l : list result_row) :
  In y (order_by_calories db l) <-> In y l.
Proof.
  induction l as [|x l IH]; simpl; [reflexivity |].
  rewrite In_insert_by_calories, IH. intuition.
Qed.

(** Whatever the ranks, the row put first has no more calories. *)
Lemma comes_before_le db (x y : result_row) :
  comes_before db x y = true -> calories_le x y.
Proof.
  unfold comes_before, calories_le.
  destruct (Qcompare_spec (calories x) (calories y)) as [E|E|E]; intros H.
  - rewrite E. apply Qle_refl.
  - now apply Qlt_le_weak.
  - discriminate.
Qed.

Lemma comes_before_ge db (x y : result_row) :
  comes_before db x y = false -> calories_le y x.
Proof.
  unfold comes_before, calories_le.
  destruct (Qcompare_spec (calories x) (calories y)) as [E|E|E]; intros H.
  - rewrite E. apply Qle_refl.
  - discriminate.
  - now apply Qlt_le_weak.
Qed.

Lemma insert_by_calories_sorted db (x : result_row) (l : list result_row) :
  StronglySorted calories_le l ->
  StronglySorted calories_le (insert_by_calories db x l).
Proof.
  induction 1 as [|z l Hs IH Hz]; simpl.
  - repeat constructor.
  - destruct (comes_before db x z) eqn:E.
    + apply comes_before_le in E. constructor.
      * now constructor.
      * constructor; [exact E |].
        eapply Forall_impl; [exact Hz |].
        intros a Ha. unfold calories_le in *.
        now apply Qle_trans with (calories z).
    + apply comes_before_ge in E.
      constructor; [exact IH |].
      apply List.Forall_forall. intros a Ha.
      apply In_insert_by_calories in Ha as [-> | Ha]; [exact E |].
      rewrite List.Forall_forall in Hz. now apply Hz.
Qed.

Lemma order_by_calories_sorted db (l : list result_row) :
  StronglySorted calories_le (order_by_calories db l).
Proof.
  induction l as [|x l IH]; simpl; [constructor |].
  now apply insert_by_calories_sorted.
Qed.

Lemma execute_sorted (st : statement) (db : database) :
  StronglySorted calories_le (execute st db).
Proof. apply order_by_calories_sorted. Qed.

Lemma execute_In (st : statement) (db : database) (r : result_row) :
  In r (execute st db) <->
  exists j, In j (from_clause db) /\ where_clause st db j = true /\
            r = select_columns j.
Proof.
  unfold execute. rewrite In_order_by_calories, in_map_iff. split.
  - intros [j [<- Hj]]. apply List.filter_In in Hj as [? ?]. now exists j.
  - intros [j [? [? ->]]]. exists j. split; [reflexivity |].
    now apply List.filter_In.
Qed.

(** The conditions of the WHERE clause of a statement without a
    comparison of literals, one by one. *)
Lemma where_clause_true (st : statement) (db : database) v r c :
  s_disjunct st = None ->
  (where_clause st db (v, r, c) = true <->
   between (v_calories v) (s_calories st) = true /\
   between (v_pct_carbs v) (s_carbs st) = true /\
   between (v_pct_fat v) (s_fat st) = true /\
   between (v_pct_protein v) (s_protein st) = true /\
   (forall lit, s_category st = Some lit -> category_matches db c lit = true) /\
   (forall ids, s_not_allergens st = Some ids ->
      exists_link (recipe_allergens db) (r_recipe_id r) ids = false) /\
   (forall ids, s_any_label st = Some ids ->
      exists_link (recipe_diet_labels db) (r_recipe_id r) ids = true)).
Proof.
  intros Hd. unfold where_clause. rewrite Hd, !andb_true_iff.
  destruct (s_category st) as [lit|], (s_not_allergens st) as [al|],
    (s_any_label st) as [lab|]; rewrite ?negb_true_iff;
    intuition (try discriminate; try match goal with
      | H : forall x, Some _ = Some x -> _ |- _ => now apply H
      | H : Some _ = Some _ |- _ => now injection H as <-
      end).
Qed.

(** ** The join, row by row *)

Lemma left_join_categories_In (db : database) (r : recipe)
    (c : option category_row) :
  In c (left_join_categories db r) <->
  match c with
  | Some cat => In cat (categories db) /\
                r_category_id r = Some (c_category_id cat)
  | None => forall cat, In cat (categories db) ->
                        r_category_id r <> Some (c_category_id cat)
  end.
Proof.
  unfold left_join_categories. destruct (r_category_id r) as [k|].
  2:{ destruct c as [cat|]; simpl; split; try tauto; try discriminate.
      - intros [H|[]]. discriminate.
      - intros [_ H]. discriminate. }
  destruct (List.filter (fun c0 => c_category_id c0 =? k) (categories db))
    as [|c0 cs] eqn:E.
  - assert (Hnone : forall cat, In cat (categories db) -> c_category_id cat <> k).
    { intros cat Hcat Hk.
      assert (Hin : In cat (List.filter (fun c0 => c_category_id c0 =? k)
                              (categories db)))
        by (apply List.filter_In; split; [exact Hcat | now apply Z.eqb_eq]).
      rewrite E in Hin. exact Hin. }
    destruct c as [cat|]; simpl; split.
    + intros [H|[]]. discriminate.
    + intros [Hcat [= Hk]]. symmetry in Hk. now apply Hnone in Hk.
    + intros _ cat Hcat [= Hk]. symmetry in Hk. now apply Hnone in Hk.
    + auto.
  - rewrite <- E. destruct c as [cat|].
    + rewrite in_map_iff. split.
      * intros [cat' [[= ->] Hin]]. apply List.filter_In in Hin as [Hin Hk].
        apply Z.eqb_eq in Hk. now subst.
      * intros [Hin [= Hk]]. exists cat. split; [reflexivity |].
        apply List.filter_In. split; [exact Hin |]. subst. apply Z.eqb_refl.
    + rewrite in_map_iff. split.
      * intros [cat' [Hd _]]. discriminate.
      * intros H. exfalso.
        assert (Hin : In c0 (List.filter (fun c1 => c_category_id c1 =? k)
                               (categories db)))
          by (rewrite E; now left).
        apply List.filter_In in Hin as [Hin Hk]. apply Z.eqb_eq in Hk.
        apply (H c0 Hin). now subst.
Qed.

Lemma from_clause_joined (db : database) v r c :
  In (v, r, c) (from_clause db) <-> joined_in db v r c.
Proof.
  unfold from_clause, joined_in. rewrite in_flat_map. split.
  - intros [v' [Hv H]]. apply in_flat_map in H as [r' [Hr H]].
    apply in_map_iff in H as [c' [[= -> -> ->] Hc]].
    apply List.filter_In in Hr as [Hr Hid]. apply Z.eqb_eq in Hid.
    apply left_join_categories_In in Hc. auto.
  - intros (Hv & Hr & Hid & Hc). exists v. split; [exact Hv |].
    apply in_flat_map. exists r. split.
    + apply List.filter_In. split; [exact Hr | now apply Z.eqb_eq].
    + apply in_map_iff. exists c. split; [reflexivity |].
      now apply left_join_categories_In.
Qed.

(** ** [search_recipes] *)

Lemma search_recipes_run eng cal_min cal_max carb_target fat_target
    prot_target margin category exclude_allergen_ids diet_label_ids w :
  search_recipes eng cal_min cal_max carb_target fat_target prot_target
    margin category exclude_allergen_ids diet_label_ids w
  = match read_sql (query_text cal_min cal_max carb_target fat_target
                      prot_target margin category exclude_allergen_ids
                      diet_label_ids) eng with
    | Returned df => (Returned df, w)
    | Raised e =>
        (Returned empty_frame,
         {| heap := heap w;
            page := page w ++ [st_error ("Query failed: " +:+ e)] |})
    end.
Proof.
  unfold search_recipes, try_except, bind, lift, ret, emit.
  now destruct (read_sql _ eng).
Qed.

(** With the store up and a plain category, the call returns the rows of
    the intended statement and leaves the page alone. *)
Lemma search_recipes_connected_run db cal_min cal_max
    carb_target fat_target prot_target margin category
    exclude_allergen_ids diet_label_ids w :
  plain_category category ->
  search_recipes (Connected db) cal_min cal_max carb_target fat_target
    prot_target margin category exclude_allergen_ids diet_label_ids w
  = (Returned
       (frame_of_rows
          (execute (statement_of cal_min cal_max carb_target fat_target
                      prot_target margin category exclude_allergen_ids
                      diet_label_ids) db)),
     w).
Proof.
  intros Hq. rewrite search_recipes_run. unfold read_sql.
  now rewrite parse_query_text.
Qed.

Lemma selected_category_Some (category : option string) (c : string) :
  selected_category category = Some c <->
  category = Some c /\ c <> "" /\ c <> all_categories.
Proof.
  unfold selected_category. destruct category as [c'|].
  2:{ split; [discriminate | now intros [? _]]. }
  destruct (String.eqb_spec c' all_categories) as [E|E].
  - rewrite andb_false_r. split; [discriminate |].
    intros [[= <-] [_ H]]. now destruct H.
  - rewrite andb_true_r. destruct c' as [|a s]; simpl.
    + split; [discriminate | intros [[= <-] [H _]]; now destruct H].
    + split.
      * intros [= <-]. repeat split; [discriminate | assumption].
      * now intros [[= <-] _].
Qed.

Lemma selected_ids_Some (ids sel : list Z) :
  selected_ids ids = Some sel <-> ids <> [] /\ sel = ids.
Proof.
  unfold selected_ids. destruct ids as [|z l]; simpl.
  - split; [discriminate | now intros [H _]].
  - split; [now intros [= <-] | now intros [_ ->]].
Qed.

Lemma category_matches_name db c lit :
  category_matches db c lit = true ->
  exists n, option_map c_category_name c = Some n /\
            sql_lower db n = sql_lower db lit.
Proof.
  destruct c as [c|]; simpl; [| discriminate].
  intros H. apply String.eqb_eq in H. eauto.
Qed.

(** The clauses of the filter are the conditions of the intended
    statement. *)
Lemma where_clause_satisfies db cal_min cal_max carb_target fat_target
    prot_target margin category exclude_allergen_ids diet_label_ids v r c :
  r_recipe_id r = v_recipe_id v ->
  (where_clause
     (statement_of cal_min cal_max carb_target fat_target prot_target margin
        category exclude_allergen_ids diet_label_ids) db (v, r, c) = true
   <->
   satisfies_filter (Connected db) cal_min cal_max carb_target fat_target
     prot_target margin category exclude_allergen_ids diet_label_ids
     (select_columns (v, r, c))).
Proof.
  intros Hid. rewrite where_clause_true by reflexivity.
  unfold satisfies_filter. simpl.
  rewrite !between_within, Hid. split.
  - intros (H1 & H2 & H3 & H4 & H5 & H6 & H7).
    refine (conj H1 (conj H2 (conj H3 (conj H4 (conj _ (conj _ _)))))).
    + intros c0 Hc Hne Hns. apply category_matches_name, H5.
      now apply selected_category_Some.
    + intros Hne. apply exists_link_false, H6. now apply selected_ids_Some.
    + intros Hne. apply exists_link_linked, H7. now apply selected_ids_Some.
  - intros (H1 & H2 & H3 & H4 & H5 & H6 & H7).
    refine (conj H1 (conj H2 (conj H3 (conj H4 (conj _ (conj _ _)))))).
    + intros lit Hl. apply selected_category_Some in Hl as (Hc & Hne & Hns).
      destruct (H5 lit Hc Hne Hns) as (n & Hn & Hlow).
      destruct c as [cat|]; simpl in *; [| discriminate].
      injection Hn as <-. apply String.eqb_eq. exact Hlow.
    + intros ids Hs. apply selected_ids_Some in Hs as [Hne ->].
      apply exists_link_false. auto.
    + intros ids Hs. apply selected_ids_Some in Hs as [Hne ->].
      apply exists_link_linked. auto.
Qed.

Lemma cells_of_row_inj (a b : result_row) :
  cells_of_row a = cells_of_row b -> a = b.
Proof.
  destruct a as [i1 n1 u1 c1 pc1 pf1 pp1 cat1 rat1],
           b as [i2 n2 u2 c2 pc2 pf2 pp2 cat2 rat2].
  unfold cells_of_row. simpl. intros H.
  injection H as -> -> -> -> -> -> -> Hc Hr.
  destruct cat1, cat2; try discriminate;
    destruct rat1, rat2; try discriminate;
    try injection Hc as ->; try injection Hr as ->; reflexivity.
Qed.

Lemma In_rows_cells (l : list result_row) (row : list cell) :
  In row (map cells_of_row l) <->
  exists r, row = cells_of_row r /\ In r l.
Proof.
  rewrite in_map_iff. split; intros (r & H1 & H2); exists r; auto.
Qed.

(** Rows of a call on a connected store, for a plain category. *)
Lemma search_recipes_rows_connected db cal_min cal_max carb_target
    fat_target prot_target margin category exclude_allergen_ids
    diet_label_ids w df w' (row : list cell) :
  plain_category category ->
  search_recipes (Connected db) cal_min cal_max carb_target fat_target
    prot_target margin category exclude_allergen_ids diet_label_ids w
  = (Returned df, w') ->
  (In row (rows df) <->
   exists v r c,
     row = cells_of_row (select_columns (v, r, c)) /\
     joined_in db v r c /\
     satisfies_filter (Connected db) cal_min cal_max carb_target fat_target
       prot_target margin category exclude_allergen_ids diet_label_ids
       (select_columns (v, r, c))).
Proof.
  intros Hq Hs. rewrite search_recipes_connected_run in Hs by assumption.
  injection Hs as <- _. simpl. rewrite In_rows_cells. split.
  - intros (x & -> & Hx). apply execute_In in Hx as ([[v r] c] & Hj & Hw & ->).
    apply from_clause_joined in Hj. exists v, r, c.
    split; [reflexivity |]. split; [exact Hj |].
    apply where_clause_satisfies; [| exact Hw].
    now destruct Hj as (_ & _ & Hid & _).
  - intros (v & r & c & -> & Hj & Hsat). eexists. split; [reflexivity |].
    apply execute_In. exists (v, r, c).
    split; [now apply from_clause_joined |]. split; [| reflexivity].
    apply where_clause_satisfies; [| exact Hsat].
    now destruct Hj as (_ & _ & Hid & _).
Qed.

(** ** The model at work *)

(** The default filter against the small store: three recipes, by
    ascending calories. *)
Example default_filter_rows :
  search_recipes (Connected pantry) 100 700 50 30 20 5 None [] [] start
  = (Returned (frame_of_rows [soup; cake; apple_pie]), start).
Proof. reflexivity. Qed.

(** A recipe with 650 kcal and 52/28/20 percent is included. *)
Example matching_recipe_included :
  In apple_pie (execute (statement_of 100 700 50 30 20 5 None [] []) pantry).
Proof. vm_compute. tauto. Qed.

(** The same recipe is excluded once one of its allergens is. *)
Example allergen_excludes :
  search_recipes (Connected pantry) 100 700 50 30 20 5 None [5] [] start
  = (Returned (frame_of_rows [soup; cake]), start).
Proof. reflexivity. Qed.

(** A recipe of category Dessert is excluded when Breakfast is
    selected, and found under its category in any case of letters. *)
Example other_category_excludes :
  search_recipes (Connected pantry) 100 700 50 30 20 5 (Some "Breakfast")
    [] [] start
  = (Returned (frame_of_rows []), start) /\
  search_recipes (Connected pantry) 100 700 50 30 20 5 (Some "dessert")
    [] [] start
  = (Returned (frame_of_rows [apple_pie]), start).
Proof. split; reflexivity. Qed.

(** At least one of the required labels. *)
Example any_label_suffices :
  search_recipes (Connected pantry) 100 700 50 30 20 5 None [] [7; 8] start
  = (Returned (frame_of_rows [cake]), start).
Proof. reflexivity. Qed.

(** The export of one displayed row, with the decimal operations. *)
Example export_of_one_row :
  frame_to_csv decimal_repr
    (display_frame decimal_round decimal_int [apple_pie])
  = "Recipe Name,Calories,Carbs %,Fat %,Protein %,Category,Rating,URL
Apple pie,650,52.0,28.0,20.0,Dessert,4.57,https://example.org/1
".
Proof. reflexivity. Qed.

(** A name that holds the delimiter is quoted, and a missing rating is
    an empty field. *)
Example export_quotes_delimiter :
  frame_to_csv decimal_repr
    (display_frame decimal_round decimal_int [cake])
  = "Recipe Name,Calories,Carbs %,Fat %,Protein %,Category,Rating,URL
" +:+ String dquote ("Cake, big" +:+ String dquote
        ",300,45.4,30.5,24.2,Kids' Meals,,https://example.org/2
").
Proof. reflexivity. Qed.

Example file_name_of_default_range :
  file_name 100 700 = "recipe_results_100-700cal.csv".
Proof. reflexivity. Qed.

(** ** Running the display projection *)

Lemma bind_returned {A B} (m : App A) (k : A -> App B) w a w' :
  m w = (Returned a, w') -> bind m k w = k a w'.
Proof. intros H. unfold bind. now rewrite H. Qed.

Lemma bind_raised {A B} (m : App A) (k : A -> App B) w e w' :
  m w = (Raised e, w') -> bind m k w = (Raised e, w').
Proof. intros H. unfold bind. now rewrite H. Qed.

Lemma map_outcome_map {A B C} (f : B -> outcome C) (g : A -> B) (h : A -> C)
    (l : list A) :
  (forall x, In x l -> f (g x) = Returned (h x)) ->
  map_outcome f (map g l) = Returned (map h l).
Proof.
  induction l as [|x l IH]; intros H; simpl; [reflexivity |].
  rewrite H by now left. rewrite IH; [reflexivity |].
  intros y Hy. apply H. now right.
Qed.

Lemma zip_with_map {A B C D} (f : B -> C -> D) (g : A -> B) (h : A -> C)
    (l : list A) :
  zip_with f (map g l) (map h l) = map (fun x => f (g x) (h x)) l.
Proof. induction l as [|x l IH]; simpl; [reflexivity | now rewrite IH]. Qed.

Lemma update_inserted (d : positive) (f : DataFrame -> outcome DataFrame)
    (F F' : DataFrame) (H : gmap positive DataFrame) (P : list widget) :
  f F = Returned F' ->
  update d f {| heap := <[d := F]> H; page := P |}
  = (Returned tt, {| heap := <[d := F']> H; page := P |}).
Proof.
  intros E. unfold update. simpl.
  now rewrite lookup_insert_eq, E, insert_insert_eq.
Qed.

Lemma deref_inserted (d : positive) (F : DataFrame)
    (H : gmap positive DataFrame) (P : list widget) :
  deref d {| heap := <[d := F]> H; page := P |}
  = (Returned F, {| heap := <[d := F]> H; page := P |}).
Proof. unfold deref. simpl. now rewrite lookup_insert_eq. Qed.

Lemma getitem_inserted (d : positive) (label : string) (cols : list string)
    (i : nat) {A} (g : A -> list cell) (rs : list A)
    (H : gmap positive DataFrame) (P : list widget) :
  index_of label cols = Some i ->
  let w := {| heap := <[d := {| columns := cols; rows := map g rs |}]> H;
              page := P |} in
  getitem d label w = (Returned (map (fun r => nth i (g r) VNaN) rs), w).
Proof.
  intros Hi w. unfold getitem.
  erewrite bind_returned by apply deref_inserted.
  unfold lift, frame_getitem. simpl. rewrite Hi. now rewrite map_map.
Qed.

(** One column through a function of series, in place: the three
    statements [s = df[label]; s = f(s); df[label] = s]. *)
Lemma column_block (f : list cell -> outcome (list cell)) (d : positive)
    (label : string) (cols : list string) (i : nat)
    {A} (g : A -> list cell) (h : A -> cell) (rs : list A)
    (H : gmap positive DataFrame) (P : list widget) :
  index_of label cols = Some i ->
  f (map (fun r => nth i (g r) VNaN) rs) = Returned (map h rs) ->
  (s <- getitem d label ;; s <- lift (f s) ;; setitem d label s)
    {| heap := <[d := {| columns := cols; rows := map g rs |}]> H; page := P |}
  = (Returned tt,
     {| heap := <[d := {| columns := cols;
                          rows := map (fun r => set_nth i (h r) (g r)) rs |}]> H;
        page := P |}).
Proof.
  intros Hi Hf.
  erewrite bind_returned by (apply getitem_inserted; exact Hi).
  erewrite bind_returned by (unfold lift; rewrite Hf; reflexivity).
  unfold setitem. apply update_inserted.
  unfold frame_setitem. simpl. rewrite !length_map, Nat.eqb_refl. simpl.
  rewrite Hi. now rewrite zip_with_map.
Qed.

(** The same when the function raises: the frame stays as it is. *)
Lemma column_block_raises (f : list cell -> outcome (list cell)) (d : positive)
    (label : string) (cols : list string) (i : nat)
    {A} (g : A -> list cell) (e : string) (rs : list A)
    (H : gmap positive DataFrame) (P : list widget) :
  index_of label cols = Some i ->
  f (map (fun r => nth i (g r) VNaN) rs) = Raised e ->
  let w := {| heap := <[d := {| columns := cols; rows := map g rs |}]> H;
              page := P |} in
  (s <- getitem d label ;; s <- lift (f s) ;; setitem d label s) w
  = (Raised e, w).
Proof.
  intros Hi Hf w.
  erewrite bind_returned by (apply getitem_inserted; exact Hi).
  apply bind_raised. unfold lift. now rewrite Hf.
Qed.

(** The same with two functions in a row. *)
Lemma column_block2 (f1 f2 : list cell -> outcome (list cell)) (d : positive)
    (label : string) (cols : list string) (i : nat)
    {A} (g : A -> list cell) (h1 h : A -> cell) (rs : list A)
    (H : gmap positive DataFrame) (P : list widget) :
  index_of label cols = Some i ->
  f1 (map (fun r => nth i (g r) VNaN) rs) = Returned (map h1 rs) ->
  f2 (map h1 rs) = Returned (map h rs) ->
  (s <- getitem d label ;; s <- lift (f1 s) ;; s <- lift (f2 s) ;;
   setitem d label s)
    {| heap := <[d := {| columns := cols; rows := map g rs |}]> H; page := P |}
  = (Returned tt,
     {| heap := <[d := {| columns := cols;
                          rows := map (fun r => set_nth i (h r) (g r)) rs |}]> H;
        page := P |}).
Proof.
  intros Hi Hf1 Hf2.
  erewrite bind_returned by (apply getitem_inserted; exact Hi).
  erewrite bind_returned by (unfold lift; rewrite Hf1; reflexivity).
  erewrite bind_returned by (unfold lift; rewrite Hf2; reflexivity).
  unfold setitem. apply update_inserted.
  unfold frame_setitem. simpl. rewrite !length_map, Nat.eqb_refl. simpl.
  rewrite Hi. now rewrite zip_with_map.
Qed.

(** *** The dtype of a column *)

Lemma numeric_dtype_numbers {A} (f : A -> cell) (rs : list A) :
  rs <> [] -> (forall r, is_number (f r) = true) ->
  numeric_dtype (map f rs) = true.
Proof.
  intros Hne Hf. unfold numeric_dtype. apply andb_true_iff. split.
  - destruct rs as [|r rs]; [now destruct Hne |]. simpl. now rewrite Hf.
  - apply negb_true_iff. clear Hne.
    induction rs as [|r rs IH]; simpl; [reflexivity |].
    rewrite IH, orb_false_r. specialize (Hf r). now destruct (f r).
Qed.

Lemma numeric_dtype_rating (f : result_row -> cell) (rs : list result_row) :
  (forall r, f r = cell_of_num (rating r)) ->
  numeric_dtype (map f rs) = some_rating rs.
Proof.
  intros Hf. unfold numeric_dtype, some_rating.
  assert (Hs : existsb is_str (map f rs) = false).
  { induction rs as [|r rs IH]; simpl; [reflexivity |].
    rewrite IH, Hf. now destruct (rating r). }
  rewrite Hs, andb_true_r.
  induction rs as [|r rs IH]; simpl; [reflexivity |].
  simpl in Hs. apply orb_false_iff in Hs as [_ Hs].
  rewrite IH by exact Hs. rewrite Hf. now destruct (rating r).
Qed.

Lemma some_rating_nonempty (rs : list result_row) :
  some_rating rs = true -> rs <> [].
Proof. now destruct rs. Qed.

Section Projection.

Variable np_round : nat -> Q -> Q.
Variable np_int : Q -> Z.

Lemma series_round_numeric (dec : nat) {A} (f : A -> cell) (h : A -> cell)
    (rs : list A) :
  numeric_dtype (map f rs) = true ->
  (forall r, round_cell np_round dec (f r) = h r) ->
  series_round np_round dec (map f rs) = Returned (map h rs).
Proof.
  intros Hn Hr. unfold series_round. rewrite Hn, map_map.
  f_equal. now apply map_ext.
Qed.

Lemma round_block (dec : nat) (d : positive)
    (label : string) (cols : list string) (i : nat)
    {A} (g : A -> list cell) (h : A -> cell) (rs : list A)
    (H : gmap positive DataFrame) (P : list widget) :
  index_of label cols = Some i ->
  numeric_dtype (map (fun r => nth i (g r) VNaN) rs) = true ->
  (forall r, round_cell np_round dec (nth i (g r) VNaN) = h r) ->
  (s <- getitem d label ;; s <- lift (series_round np_round dec s) ;;
   setitem d label s)
    {| heap := <[d := {| columns := cols; rows := map g rs |}]> H; page := P |}
  = (Returned tt,
     {| heap := <[d := {| columns := cols;
                          rows := map (fun r => set_nth i (h r) (g r)) rs |}]> H;
        page := P |}).
Proof.
  intros Hi Hn Hr. apply column_block; [exact Hi |].
  now apply series_round_numeric.
Qed.

Lemma getitem_list_run (r : positive) (labels : list string) (df df' : DataFrame)
    (w : world) :
  heap w !! r = Some df ->
  frame_getitem_list labels df = Returned df' ->
  getitem_list r labels w
  = (Returned (fresh (dom (heap w))),
     {| heap := <[fresh (dom (heap w)) := df']> (heap w); page := page w |}).
Proof.
  intros Hr Hf. unfold getitem_list, bind, deref, lift, new_object.
  now rewrite Hr, Hf.
Qed.

Lemma select_result_columns (rs : list result_row) :
  frame_getitem_list selection_labels (frame_of_rows rs)
  = Returned {| columns := selection_labels; rows := map selection_cells rs |}.
Proof.
  unfold frame_getitem_list. simpl. now rewrite map_map.
Qed.

(** The display projection of a frame that [read_sql] returned, with at
    least one row: two new objects are made, the selection and its copy;
    the copy is renamed and rounded column by column.  When no row has a
    rating, rounding the rating column raises; the page is not touched
    either way. *)
Lemma display_df_run (results_df : positive) (rs : list result_row) (w : world) :
  heap w !! results_df = Some (frame_of_rows rs) ->
  rs <> [] ->
  let sel := fresh (dom (heap w)) in
  let selection :=
    {| columns := selection_labels; rows := map selection_cells rs |} in
  let d := fresh (dom (<[sel := selection]> (heap w))) in
  display_df np_round np_int results_df w
  = if some_rating rs then
      (Returned d,
       {| heap := <[d := display_frame np_round np_int rs]>
                    (<[sel := selection]> (heap w));
          page := page w |})
    else
      (Raised type_error,
       {| heap := <[d := {| columns := display_labels;
                            rows := map (unrated_cells np_round np_int) rs |}]>
                    (<[sel := selection]> (heap w));
          page := page w |}).
Proof.
  intros Hr Hne sel selection d. unfold display_df.
  erewrite bind_returned
    by (eapply getitem_list_run; [exact Hr | apply select_result_columns]).
  fold sel selection.
  erewrite bind_returned.
  2:{ unfold copy. erewrite bind_returned by apply deref_inserted.
      unfold new_object. simpl. fold d. reflexivity. }
  erewrite bind_returned
    by (unfold set_columns; apply update_inserted; reflexivity).
  erewrite bind_returned.
  2:{ apply round_block with (i := 2%nat)
        (h := fun r => VFloat (np_round 1%nat (pct_carbs r)));
        [reflexivity | now apply numeric_dtype_numbers | reflexivity]. }
  erewrite bind_returned.
  2:{ apply round_block with (i := 3%nat)
        (h := fun r => VFloat (np_round 1%nat (pct_fat r)));
        [reflexivity | now apply numeric_dtype_numbers | reflexivity]. }
  erewrite bind_returned.
  2:{ apply round_block with (i := 4%nat)
        (h := fun r => VFloat (np_round 1%nat (pct_protein r)));
        [reflexivity | now apply numeric_dtype_numbers | reflexivity]. }
  erewrite bind_returned.
  2:{ apply column_block2 with (i := 1%nat)
        (h1 := fun r => VFloat (np_round 0%nat (calories r)))
        (h := fun r => VInt (np_int (np_round 0%nat (calories r))));
        [reflexivity | |].
      - apply series_round_numeric; [| reflexivity].
        now apply numeric_dtype_numbers.
      - unfold series_astype_int.
        now apply map_outcome_map
          with (g := fun r => VFloat (np_round 0%nat (calories r))). }
  destruct (some_rating rs) eqn:Hrat.
  - erewrite bind_returned.
    2:{ apply round_block with (i := 6%nat)
          (h := fun r => cell_of_num (option_map (np_round 2%nat) (rating r))).
        - reflexivity.
        - rewrite numeric_dtype_rating; [exact Hrat | reflexivity].
        - intros r. simpl. now destruct (rating r). }
    reflexivity.
  - erewrite bind_raised; [reflexivity |].
    apply column_block_raises with (i := 6%nat); [reflexivity |].
    unfold series_round.
    rewrite numeric_dtype_rating; [now rewrite Hrat | reflexivity].
Qed.

End Projection.

(** ** Running the results section *)

Section Page.

Variable np_round : nat -> Q -> Q.
Variable np_int : Q -> Z.
Variable float_repr : Q -> string.



(** Rows, none of them with a rating: after the success message the
    rounding of the rating column raises, and the script ends there. *)
Lemma show_results_run_unrated eng
    cal_min cal_max carb_target fat_target prot_target margin
    (selected_category : string) exclude_allergen_ids diet_label_ids
    w (rs : list result_row) w1 :
  search_recipes eng cal_min cal_max carb_target fat_target prot_target
    margin
    (if negb (String.eqb selected_category all_categories)
     then Some selected_category else None)
    exclude_allergen_ids diet_label_ids w
  = (Returned (frame_of_rows rs), w1) ->
  rs <> [] ->
  some_rating rs = false ->
  exists w',
    show_results np_round np_int float_repr eng cal_min cal_max carb_target
      fat_target prot_target margin selected_category exclude_allergen_ids
      diet_label_ids w
    = (Raised type_error, w') /\
    page w' = page w1 ++
      [st_success (str (Z.of_nat (length rs)) +:+ " recipes match your criteria")].
Proof.
  intros Hs Hne Hrat.
  assert (Hlen : (0 <? length (rows (frame_of_rows rs)))%nat = true).
  { simpl. rewrite length_map. apply Nat.ltb_lt.
    destruct rs; [now destruct Hne | simpl; lia]. }
  eexists. split.
  - unfold show_results.
    erewrite bind_returned by exact Hs.
    erewrite bind_returned by reflexivity.
    erewrite bind_returned
      by (unfold len; erewrite bind_returned by apply deref_inserted;
          reflexivity).
    rewrite Hlen.
    erewrite bind_raised; [reflexivity |].
    erewrite bind_returned by reflexivity.
    erewrite bind_raised; [reflexivity |].
    rewrite (display_df_run np_round np_int _ rs);
      [rewrite Hrat; reflexivity | | exact Hne].
    simpl. now rewrite lookup_insert_eq.
  - simpl. now rewrite length_map.
Qed.

End Page.



(* ================================================================= *)
(** * The query builder and executor *)

(** ** The text carries the values *)

Lemma query_text_bounds_inj
    cal_min cal_max carb_target fat_target prot_target margin category
    exclude_allergen_ids diet_label_ids
    cal_min' cal_max' carb_target' fat_target' prot_target' margin' category'
    exclude_allergen_ids' diet_label_ids' :
  query_text cal_min cal_max carb_target fat_target prot_target margin
    category exclude_allergen_ids diet_label_ids
  = query_text cal_min' cal_max' carb_target' fat_target' prot_target'
      margin' category' exclude_allergen_ids' diet_label_ids' ->
  cal_min = cal_min' /\ cal_max = cal_max' /\
  carb_target - margin = carb_target' - margin' /\
  carb_target + margin = carb_target' + margin' /\
  fat_target - margin = fat_target' - margin' /\
  fat_target + margin = fat_target' + margin' /\
  prot_target - margin = prot_target' - margin' /\
  prot_target + margin = prot_target' + margin'.
Proof.
  intros H. apply (f_equal read_where) in H.
  rewrite !read_where_query_text in H.
  injection H as -> -> -> -> -> -> -> -> _. repeat split; reflexivity.
Qed.

Lemma length_app (a b : string) :
  String.length (a +:+ b) = (String.length a + String.length b)%nat.
Proof.
  induction a as [|x a IH]; [reflexivity |].
  rewrite app_cons. simpl. now rewrite IH.
Qed.

Lemma app_eq_self (j s : string) : j +:+ s = s -> j = "".
Proof.
  intros H. apply (f_equal String.length) in H. rewrite length_app in H.
  destruct j; [reflexivity | simpl in H; lia].
Qed.

Lemma in_list_not_empty (opening : string) (z : Z) (ids : list Z) :
  opening +:+ join "," (map str (z :: ids)) +:+ in_close
  <> opening +:+ in_close.
Proof.
  intros H. apply String.app_inj, app_eq_self in H.
  now apply join_nonempty in H.
Qed.

(** ** The claims *)

(** C1 fails on the code.  The category is put between quotes without
    escaping (line 82).  Called with the category string [Kids'' Meals]
    on a store that has the category [Kids' Meals], [search_recipes]
    sends [LOWER('Kids'' Meals')], which the store reads as the literal
    [Kids' Meals]: the row that comes back has a category name that does
    not match the selected string in any case of letters, so not every
    returned row satisfies the matching clauses. *)
Theorem doubled_quote_category_mismatch :
  ~ rows_satisfy_filter (Connected pantry) 100 700 50 30 20 5
      (Some "Kids'' Meals") [] [] start.
Proof.
  intros (df & w' & Hs & Hrows).
  rewrite search_recipes_run in Hs. vm_compute in Hs.
  injection Hs as <- _.
  destruct (Hrows _ (or_introl eq_refl)) as (r & Hr & Hsat).
  destruct Hsat as (_ & _ & _ & _ & Hcat & _).
  destruct (Hcat _ eq_refl) as (n & Hn & Hl); [discriminate.. |].
  unfold cells_of_row in Hr. injection Hr as _ _ _ _ _ _ _ Hc _.
  rewrite Hn in Hc. injection Hc as <-.
  vm_compute in Hl. discriminate.
Qed.

(** C2 fails on the code.  [search_recipes] binds no parameter: the
    statement text depends on the values (two calls that differ in the
    lower calorie bound build different texts), and the category string
    is copied into the text as it is, so that a string with a quote
    changes the statement itself: with the category [x') OR ('1'='1] the
    text holds a comparison of two literals after the category
    comparison, and that is how the store reads it. *)
Theorem query_text_carries_raw_values :
  query_text 100 700 50 30 20 5 None [] []
  <> query_text 150 700 50 30 20 5 None [] [] /\
  category_clause (Some "x') OR ('1'='1")
  = "AND LOWER(c.category_name) = LOWER('x') OR ('1'='1')" /\
  parse_statement
    (query_text 100 700 50 30 20 5 (Some "x') OR ('1'='1") [] [])
  = Some {| s_calories := (100, 700);
            s_carbs := (45, 55);
            s_fat := (25, 35);
            s_protein := (15, 25);
            s_category := Some "x";
            s_disjunct := Some ("1", "1");
            s_not_allergens := None;
            s_any_label := None |}.
Proof.
  split; [| split; reflexivity].
  intros H. apply query_text_bounds_inj in H as [H _]. discriminate.
Qed.

(** C3.  When the execution of the statement raises, [search_recipes]
    catches the exception, puts an error on the page and returns the
    empty frame; the rest of the page (the help text and the footer) is
    rendered as for any empty result. *)
Theorem search_recipes_catches_failure (np_round : nat -> Q -> Q)
    (np_int : Q -> Z) (float_repr : Q -> string) eng
    cal_min cal_max carb_target fat_target prot_target margin
    (selected_category : string) exclude_allergen_ids diet_label_ids w e :
  let category :=
    if negb (String.eqb selected_category all_categories)
    then Some selected_category else None in
  read_sql (query_text cal_min cal_max carb_target fat_target prot_target
              margin category exclude_allergen_ids diet_label_ids) eng
  = Raised e ->
  search_recipes eng cal_min cal_max carb_target fat_target prot_target
    margin category exclude_allergen_ids diet_label_ids w
  = (Returned empty_frame,
     {| heap := heap w;
        page := page w ++ [st_error ("Query failed: " +:+ e)] |}) /\
  show_results np_round np_int float_repr eng cal_min cal_max carb_target
    fat_target prot_target margin selected_category exclude_allergen_ids
    diet_label_ids w
  = (Returned tt,
     {| heap := <[fresh (dom (heap w)) := empty_frame]> (heap w);
        page := page w ++
          [st_error ("Query failed: " +:+ e);
           st_warning
             "No recipes found matching your criteria. Try adjusting your filters:";
           st_markdown no_results_help;
           st_divider;
           st_caption disclaimer] |}).
Proof.
  intros category H. split.
  - rewrite search_recipes_run. now rewrite H.
  - unfold show_results, bind. fold category.
    rewrite search_recipes_run, H.
    unfold new_object, len, bind, deref, ret, emit. simpl.
    rewrite lookup_insert_eq. simpl.
    now rewrite <- !List.app_assoc.
Qed.

Lemma search_recipes_catches_failure_witness :
  read_sql (query_text 100 700 50 30 20 5 None [] [])
    (Unavailable "connection refused")
  = Raised "connection refused" /\
  search_recipes (Unavailable "connection refused") 100 700 50 30 20 5
    None [] [] start
  = (Returned empty_frame,
     {| heap := ∅;
        page := [st_error "Query failed: connection refused"] |}).
Proof.
  assert (H : read_sql (query_text 100 700 50 30 20 5 None [] [])
                (Unavailable "connection refused")
              = Raised "connection refused") by reflexivity.
  split; [exact H |].
  exact (proj1 (search_recipes_catches_failure decimal_round decimal_int
                  decimal_repr
                  (Unavailable "connection refused") 100 700 50 30 20 5
                  "All Categories" [] [] start "connection refused" H)).
Defined.


(** C5 fails on the code.  With [cal_min = cal_max = 100], margin 0 and
    the category [x') OR ('1'='1], the statement the store runs is the
    four ranges and the category comparison OR a comparison that is
    true: every recipe comes back, among them one of 300.1 kcal and one
    of 650 kcal whose percentages are not the targets. *)
Theorem injected_disjunct_overrides_bounds :
  search_recipes (Connected pantry) 100 100 50 30 20 0
    (Some "x') OR ('1'='1") [] [] start
  = (Returned (frame_of_rows [soup; cake; apple_pie]), start) /\
  ~ (calories cake == 100)%Q /\ ~ (calories apple_pie == 100)%Q /\
  ~ (pct_carbs cake == 50)%Q /\ ~ (pct_carbs apple_pie == 50)%Q.
Proof.
  split; [reflexivity |]. repeat split; intros H; discriminate H.
Qed.

(** C6 fails on the code.  The two category strings [x') OR ('A'='a] and
    [x') OR ('a'='a] differ only in the case of one letter, and the two
    runs differ: the comparison of literals the quote brings into the
    statement is exact, so the first run returns no row and the second
    every recipe. *)
Theorem injected_disjunct_depends_on_case :
  lower "x') OR ('A'='a" = lower "x') OR ('a'='a" /\
  search_recipes (Connected pantry) 100 700 50 30 20 5
    (Some "x') OR ('A'='a") [] [] start
  = (Returned (frame_of_rows []), start) /\
  search_recipes (Connected pantry) 100 700 50 30 20 5
    (Some "x') OR ('a'='a") [] [] start
  = (Returned (frame_of_rows [soup; cake; apple_pie]), start).
Proof. repeat split; reflexivity. Qed.

(* ================================================================= *)
(** * The result presenter *)

(** C7 fails on the code.  When no row of the result has a rating, the
    Rating column of the frame holds missing values only and is not a
    numeric column: [round(2)] on it (line 300) raises, and no display
    projection is made.  The search for the diet label 7 in the small
    store returns one recipe, which has no rating. *)
Theorem display_df_raises_without_rating (np_round : nat -> Q -> Q)
    (np_int : Q -> Z) :
  let raw := frame_of_rows
               (execute (statement_of 100 700 50 30 20 5 None [] [7]) pantry) in
  let w := {| heap := {[ 1%positive := raw ]}; page := [] |} in
  raw = frame_of_rows [cake] /\
  exists e w', display_df np_round np_int 1%positive w = (Raised e, w').
Proof.
  intros raw w. split; [reflexivity |].
  eexists _, _.
  rewrite (display_df_run np_round np_int 1%positive [cake]);
    [reflexivity | apply lookup_singleton_eq | discriminate].
Qed.

(** *** The raw result is left alone *)

Lemma bind_inv {A B} (m : App A) (k : A -> App B) w o w' :
  bind m k w = (o, w') ->
  (exists e, m w = (Raised e, w') /\ o = Raised e) \/
  (exists a w1, m w = (Returned a, w1) /\ k a w1 = (o, w')).
Proof.
  unfold bind. destruct (m w) as [[a|e] w1]; intros H.
  - right. now exists a, w1.
  - left. injection H as <- <-. now exists e.
Qed.

Lemma only_writes_bind {A B} d (m : App A) (k : A -> App B) :
  only_writes d m -> (forall a, only_writes d (k a)) ->
  only_writes d (bind m k).
Proof.
  intros Hm Hk w o w' H r Hr.
  apply bind_inv in H as [(e & H & _) | (a & w1 & H1 & H2)].
  - now apply (Hm _ _ _ H).
  - rewrite (Hk a _ _ _ H2 r Hr). now apply (Hm _ _ _ H1).
Qed.

Lemma only_writes_ret {A} d (a : A) : only_writes d (ret a).
Proof. intros w o w' [= _ <-] r _. reflexivity. Qed.

Lemma only_writes_lift {A} d (x : outcome A) : only_writes d (lift x).
Proof. intros w o w' [= _ <-] r _. reflexivity. Qed.

Lemma only_writes_deref d r0 : only_writes d (deref r0).
Proof.
  intros w o w' H r _. unfold deref in H.
  destruct (heap w !! r0); now injection H as _ <-.
Qed.

Lemma only_writes_update d f : only_writes d (update d f).
Proof.
  intros w o w' H r Hr. unfold update in H.
  destruct (heap w !! d) as [df|]; [| now injection H as _ <-].
  destruct (f df); injection H as _ <-; [| reflexivity].
  simpl. now apply lookup_insert_ne.
Qed.

Lemma deref_inv r w o w' : deref r w = (o, w') -> w' = w.
Proof.
  unfold deref. destruct (heap w !! r); now intros [= _ <-].
Qed.

Lemma new_object_inv df w o w' :
  new_object df w = (o, w') ->
  exists r, o = Returned r /\ heap w !! r = None /\
            forall r', r' <> r -> heap w' !! r' = heap w !! r'.
Proof.
  unfold new_object. intros [= <- <-]. eexists. split; [reflexivity |]. split.
  - apply not_elem_of_dom, is_fresh.
  - intros r' Hr. simpl. now apply lookup_insert_ne.
Qed.

(** Making an object leaves the objects that exist as they are. *)
Lemma new_object_keeps df w o w' r0 df0 :
  new_object df w = (o, w') ->
  heap w !! r0 = Some df0 -> heap w' !! r0 = Some df0.
Proof.
  intros H H0. apply new_object_inv in H as (r & _ & Hf & Hk).
  rewrite Hk; [exact H0 |]. intros ->. congruence.
Qed.

Lemma getitem_list_keeps r labels w o w' r0 df0 :
  getitem_list r labels w = (o, w') ->
  heap w !! r0 = Some df0 -> heap w' !! r0 = Some df0.
Proof.
  unfold getitem_list. intros H H0.
  apply bind_inv in H as [(e & H & _) | (a & w1 & H1 & H)].
  { apply deref_inv in H. now subst. }
  apply deref_inv in H1. subst w1.
  apply bind_inv in H as [(e & H & _) | (a' & w1 & H1 & H)].
  { injection H as _ <-. exact H0. }
  injection H1 as _ <-. eapply new_object_keeps; eassumption.
Qed.

Lemma copy_keeps r w o w' r0 df0 :
  copy r w = (o, w') ->
  heap w !! r0 = Some df0 ->
  heap w' !! r0 = Some df0 /\ o <> Returned r0.
Proof.
  unfold copy. intros H H0.
  apply bind_inv in H as [(e & H & ->) | (a & w1 & H1 & H)].
  { apply deref_inv in H. now subst. }
  apply deref_inv in H1. subst w1.
  pose proof (new_object_keeps _ _ _ _ _ _ H H0) as K.
  apply new_object_inv in H as (d & -> & Hf & _).
  split; [exact K |]. intros [= ->]. congruence.
Qed.

(** C8.  Whatever the display projection does, and whether it succeeds
    or raises, every object that existed before it ran, the raw result
    among them, is the same frame afterwards: the projection assigns
    only through the reference of the copy it made. *)
Theorem display_df_keeps_raw_result (np_round : nat -> Q -> Q)
    (np_int : Q -> Z) (results_df : positive) (w w' : world)
    (o : outcome positive) :
  display_df np_round np_int results_df w = (o, w') ->
  forall r df, heap w !! r = Some df -> heap w' !! r = Some df.
Proof.
  intros H r df Hr. unfold display_df in H.
  apply bind_inv in H as [(e & H & _) | (sel & w1 & H1 & H)].
  { eapply getitem_list_keeps; eassumption. }
  pose proof (getitem_list_keeps _ _ _ _ _ _ _ H1 Hr) as K1.
  apply bind_inv in H as [(e & H & _) | (d & w2 & H2 & H)].
  { eapply copy_keeps; eassumption. }
  destruct (copy_keeps _ _ _ _ _ _ H2 K1) as [K2 Hne].
  assert (Hrd : r <> d) by (intros ->; now apply Hne).
  assert (W : only_writes d
    (set_columns d display_labels ;;;
     (s <- getitem d "Carbs %" ;; s <- lift (series_round np_round 1 s) ;;
      setitem d "Carbs %" s) ;;;
     (s <- getitem d "Fat %" ;; s <- lift (series_round np_round 1 s) ;;
      setitem d "Fat %" s) ;;;
     (s <- getitem d "Protein %" ;; s <- lift (series_round np_round 1 s) ;;
      setitem d "Protein %" s) ;;;
     (s <- getitem d "Calories" ;; s <- lift (series_round np_round 0 s) ;;
      s <- lift (series_astype_int np_int s) ;; setitem d "Calories" s) ;;;
     (s <- getitem d "Rating" ;; s <- lift (series_round np_round 2 s) ;;
      setitem d "Rating" s) ;;;
     ret d)).
  { repeat (apply only_writes_bind; [| intros ?]);
      try apply only_writes_update; try apply only_writes_ret;
      try apply only_writes_deref; try apply only_writes_lift. }
  rewrite (W _ _ _ H r Hrd). exact K2.
Qed.

Lemma display_df_keeps_raw_result_witness :
  let raw := frame_of_rows (execute
               (statement_of 100 700 50 30 20 5 None [] []) pantry) in
  let w := {| heap := {[ 1%positive := raw ]}; page := [] |} in
  exists o w',
    display_df decimal_round decimal_int 1%positive w = (o, w') /\
    heap w' !! 1%positive = Some raw.
Proof.
  intros raw w.
  destruct (display_df decimal_round decimal_int 1%positive w)
    as [o w'] eqn:E.
  exists o, w'. split; [reflexivity |].
  apply (display_df_keeps_raw_result decimal_round decimal_int
           1%positive w w' o E).
  apply lookup_singleton_eq.
Defined.

(** C9 fails on the code.  A result that is not empty does not always
    get its export: when no row of it has a rating, the page shows the
    success message, the rounding of the Rating column raises (line
    300), and the script ends before the table and the download button.
    The search for the diet label 7 in the small store is such a
    result. *)
Theorem show_results_raises_without_rating (np_round : nat -> Q -> Q)
    (np_int : Q -> Z) (float_repr : Q -> string) :
  exists e w',
    show_results np_round np_int float_repr (Connected pantry)
      100 700 50 30 20 5 "All Categories" [] [7] start
    = (Raised e, w') /\
    page w' = [st_success "1 recipes match your criteria"].
Proof.
  destruct (show_results_run_unrated np_round np_int float_repr
              (Connected pantry) 100 700 50 30 20 5 "All Categories" [] [7]
              start [cake] start)
    as (w' & Hrun & Hpage); [reflexivity | discriminate | reflexivity |].
  exists type_error, w'. split; [exact Hrun | exact Hpage].
Qed.

(** C10.  The NOT EXISTS and the EXISTS sub-selects are emitted exactly
    when their id list is not empty, so the list between the parentheses
    of IN is never empty; with both lists empty and no category the
    statement holds only the calorie and macro ranges. *)
Theorem in_list_never_empty :
  (forall ids, allergen_clause ids = "" <-> ids = []) /\
  (forall ids, diet_clause ids = "" <-> ids = []) /\
  (forall ids, ids <> [] ->
     join "," (map str ids) <> "" /\
     allergen_clause ids
     = allergen_open +:+ join "," (map str ids) +:+ in_close) /\
  (forall ids, ids <> [] ->
     join "," (map str ids) <> "" /\
     diet_clause ids = diet_open +:+ join "," (map str ids) +:+ in_close) /\
  (forall ids, allergen_clause ids <> allergen_open +:+ in_close) /\
  (forall ids, diet_clause ids <> diet_open +:+ in_close) /\
  (forall cal_min cal_max carb_target fat_target prot_target margin,
     query_text cal_min cal_max carb_target fat_target prot_target margin
       None [] []
     = select_from +:+ str cal_min +:+ between_and +:+ str cal_max +:+
       and_carbs +:+ str (carb_target - margin) +:+ between_and +:+
                     str (carb_target + margin) +:+
       and_fat +:+ str (fat_target - margin) +:+ between_and +:+
                   str (fat_target + margin) +:+
       and_protein +:+ str (prot_target - margin) +:+ between_and +:+
                       str (prot_target + margin) +:+
       clause_sep +:+ clause_sep +:+ clause_sep +:+ order_by /\
     parse_statement
       (query_text cal_min cal_max carb_target fat_target prot_target margin
          None [] [])
     = Some {| s_calories := (cal_min, cal_max);
               s_carbs := (carb_target - margin, carb_target + margin);
               s_fat := (fat_target - margin, fat_target + margin);
               s_protein := (prot_target - margin, prot_target + margin);
               s_category := None;
               s_disjunct := None;
               s_not_allergens := None;
               s_any_label := None |}).
Proof.
  repeat apply conj.
  - intros [|z ids]; split; try reflexivity; discriminate.
  - intros [|z ids]; split; try reflexivity; discriminate.
  - intros [|z ids] H; [now destruct H |].
    split; [apply join_nonempty | reflexivity].
  - intros [|z ids] H; [now destruct H |].
    split; [apply join_nonempty | reflexivity].
  - intros [|z ids]; [discriminate | apply in_list_not_empty].
  - intros [|z ids]; [discriminate | apply in_list_not_empty].
  - intros. split; [reflexivity |].
    now rewrite parse_query_text by discriminate.
Qed.

Lemma in_list_never_empty_witness :
  [3; 4] <> [] /\
  allergen_clause [3; 4] = allergen_open +:+ "3,4" +:+ in_close /\
  diet_clause [] = "".
Proof.
  assert (H : [3; 4] <> ([] : list Z)) by discriminate.
  destruct in_list_never_empty as (_ & Hd & Ha & _).
  refine (conj H (conj (proj2 (Ha [3; 4] H)) (proj2 (Hd []) eq_refl))).
Defined.

(* ================================================================= *)
(** * More about the query executor *)

(** X1.  With the store up and a category made of ASCII letters, digits
    and spaces (or no category), the call cannot fail: nothing is put on
    the page, and the frame has the nine columns and holds exactly the
    rows of the intended statement, in ascending order of calories. *)
Theorem search_recipes_succeeds_when_connected db cal_min cal_max
    carb_target fat_target prot_target margin category
    exclude_allergen_ids diet_label_ids w :
  plain_category category ->
  let rs := execute (statement_of cal_min cal_max carb_target fat_target
                       prot_target margin category exclude_allergen_ids
                       diet_label_ids) db in
  search_recipes (Connected db) cal_min cal_max carb_target fat_target
    prot_target margin category exclude_allergen_ids diet_label_ids w
  = (Returned
       {| columns := ["recipe_id"; "name"; "url"; "calories"; "pct_carbs";
                      "pct_fat"; "pct_protein"; "category_name"; "rating"];
          rows := map cells_of_row rs |},
     w) /\
  StronglySorted calories_le rs.
Proof.
  intros Hq rs. split.
  - now apply search_recipes_connected_run.
  - apply execute_sorted.
Qed.

Lemma search_recipes_succeeds_when_connected_witness :
  plain_category (Some "Dessert") /\
  search_recipes (Connected pantry) 100 700 50 30 20 5 (Some "Dessert")
    [9] [] start
  = (Returned
       {| columns := ["recipe_id"; "name"; "url"; "calories"; "pct_carbs";
                      "pct_fat"; "pct_protein"; "category_name"; "rating"];
          rows := map cells_of_row [apple_pie] |},
     start).
Proof.
  assert (H : plain_category (Some "Dessert"))
    by (intros c [= <-]; reflexivity).
  exact (conj H (proj1 (search_recipes_succeeds_when_connected pantry
                          100 700 50 30 20 5 (Some "Dessert") [9] [] start
                          H))).
Defined.

(** ** Which recipes come back *)

(** X3.  With the store up and a category made of ASCII letters, digits
    and spaces (or no category), the rows of the returned frame are
    exactly the matching recipes: a row is returned if and only if it is
    the nine columns of a view row, joined with its recipes row and its
    category (or with none, by the LEFT JOIN), that satisfies every
    matching clause.  Nothing that matches is left out. *)
Theorem search_recipes_returns_matching_rows db cal_min cal_max carb_target
    fat_target prot_target margin category exclude_allergen_ids
    diet_label_ids w :
  plain_category category ->
  exists df,
    search_recipes (Connected db) cal_min cal_max carb_target fat_target
      prot_target margin category exclude_allergen_ids diet_label_ids w
    = (Returned df, w) /\
    forall row,
      In row (rows df) <->
      exists v r c,
        row = [VInt (v_recipe_id v); VStr (v_name v); VStr (v_url v);
               VFloat (v_calories v); VFloat (v_pct_carbs v);
               VFloat (v_pct_fat v); VFloat (v_pct_protein v);
               cell_of_str (option_map c_category_name c);
               cell_of_num (r_rating r)] /\
        joined_in db v r c /\
        satisfies_filter (Connected db) cal_min cal_max carb_target
          fat_target prot_target margin category exclude_allergen_ids
          diet_label_ids
          {| recipe_id := v_recipe_id v;
             name := v_name v;
             url := v_url v;
             calories := v_calories v;
             pct_carbs := v_pct_carbs v;
             pct_fat := v_pct_fat v;
             pct_protein := v_pct_protein v;
             category_name := option_map c_category_name c;
             rating := r_rating r |}.
Proof.
  intros Hq.
  pose proof (search_recipes_connected_run db cal_min cal_max carb_target
                fat_target prot_target margin category exclude_allergen_ids
                diet_label_ids w Hq) as Hrun.
  eexists. split; [exact Hrun |].
  intros row.
  exact (search_recipes_rows_connected _ _ _ _ _ _ _ _ _ _ _ _ _ row Hq Hrun).
Qed.

Lemma search_recipes_returns_matching_rows_witness :
  exists df,
    search_recipes (Connected pantry) 100 700 50 30 20 5 (Some "dessert")
      [9] [] start
    = (Returned df, start) /\
    In (cells_of_row apple_pie) (rows df).
Proof.
  assert (H : plain_category (Some "dessert"))
    by (intros c [= <-]; reflexivity).
  destruct (search_recipes_returns_matching_rows pantry 100 700 50 30 20 5
              (Some "dessert") [9] [] start H) as (df & Hs & Hrows).
  exists df. split; [exact Hs |].
  apply Hrows.
  exists {| v_recipe_id := 1; v_name := "Apple pie";
            v_url := "https://example.org/1"; v_calories := 650;
            v_pct_carbs := 52; v_pct_fat := 28; v_pct_protein := 20 |},
         {| r_recipe_id := 1; r_category_id := Some 10;
            r_rating := Some (4567 # 1000) |},
         (Some {| c_category_id := 10; c_category_name := "Dessert" |}).
  split; [reflexivity |]. split.
  - apply from_clause_joined. simpl. tauto.
  - apply where_clause_satisfies; reflexivity.
Defined.

(** ** Relaxing a filter *)

Lemma within_widen (x : Q) (lo hi lo' hi' : Z) :
  lo' <= lo -> hi <= hi' -> within x lo hi -> within x lo' hi'.
Proof.
  unfold within. intros Hl Hh [H1 H2].
  rewrite Zle_Qle in Hl, Hh. split.
  - now apply Qle_trans with (inject_Z lo).
  - now apply Qle_trans with (inject_Z hi).
Qed.

Lemma linked_incl (links : list link) (rid : Z) (ids ids' : list Z) l :
  incl ids ids' -> linked links rid ids l -> linked links rid ids' l.
Proof. intros Hi (H1 & H2 & H3). repeat split; auto. Qed.

(** X4.  With the store up and a category made of ASCII letters, digits
    and spaces (or no category), each relaxation the empty-result help
    text proposes can only add rows: a wider calorie range, a larger
    margin, no diet preference (or more of them, since one matching
    label suffices), fewer excluded allergens, no category.  Every row
    of the stricter search is a row of the relaxed one. *)
Theorem relaxing_filters_keeps_rows db
    cal_min cal_max carb_target fat_target prot_target margin category
    exclude_allergen_ids diet_label_ids
    cal_min' cal_max' margin' category' exclude_allergen_ids'
    diet_label_ids' w df w1 df' w1' :
  plain_category category ->
  cal_min' <= cal_min -> cal_max <= cal_max' -> margin <= margin' ->
  (category' = category \/ category' = None) ->
  incl exclude_allergen_ids' exclude_allergen_ids ->
  (diet_label_ids' = [] \/
   (diet_label_ids <> [] /\ incl diet_label_ids diet_label_ids')) ->
  search_recipes (Connected db) cal_min cal_max carb_target fat_target
    prot_target margin category exclude_allergen_ids diet_label_ids w
  = (Returned df, w1) ->
  search_recipes (Connected db) cal_min' cal_max' carb_target fat_target
    prot_target margin' category' exclude_allergen_ids' diet_label_ids' w
  = (Returned df', w1') ->
  forall row, In row (rows df) -> In row (rows df').
Proof.
  intros Hq Hlo Hhi Hm Hcat Hal Hlab Hs Hs' row Hrow.
  assert (Hq' : plain_category category')
    by (destruct Hcat as [-> | ->]; [exact Hq | discriminate]).
  apply (search_recipes_rows_connected _ _ _ _ _ _ _ _ _ _ _ _ _ _ Hq Hs)
    in Hrow as (v & r & c & -> & Hj & Hsat).
  apply (search_recipes_rows_connected _ _ _ _ _ _ _ _ _ _ _ _ _ _ Hq' Hs').
  exists v, r, c. split; [reflexivity |]. split; [exact Hj |].
  destruct Hsat as (H1 & H2 & H3 & H4 & H5 & H6 & H7).
  refine (conj _ (conj _ (conj _ (conj _ (conj _ (conj _ _)))))).
  - now apply within_widen with (lo := cal_min) (hi := cal_max).
  - apply within_widen with (lo := carb_target - margin)
      (hi := carb_target + margin); [lia | lia | exact H2].
  - apply within_widen with (lo := fat_target - margin)
      (hi := fat_target + margin); [lia | lia | exact H3].
  - apply within_widen with (lo := prot_target - margin)
      (hi := prot_target + margin); [lia | lia | exact H4].
  - destruct Hcat as [-> | ->]; [exact H5 | discriminate].
  - intros Hne l Hl. apply (linked_incl _ _ _ _ _ Hal) in Hl.
    revert Hl. apply H6. intros ->. apply Hne.
    destruct exclude_allergen_ids' as [|z t]; [reflexivity |].
    destruct (Hal z (or_introl eq_refl)).
  - intros Hne. destruct Hlab as [-> | [Hne0 Hincl]]; [now destruct Hne |].
    destruct (H7 Hne0) as [l Hl]. exists l.
    now apply linked_incl with (ids := diet_label_ids).
Qed.

Lemma relaxing_filters_keeps_rows_witness :
  exists df w1 df' w1',
    search_recipes (Connected pantry) 100 700 50 30 20 2 (Some "Dessert")
      [9; 8] [] start = (Returned df, w1) /\
    search_recipes (Connected pantry) 100 1200 50 30 20 5 None
      [9] [] start = (Returned df', w1') /\
    In (cells_of_row apple_pie) (rows df) /\
    forall row, In row (rows df) -> In row (rows df').
Proof.
  destruct (search_recipes (Connected pantry) 100 700 50 30 20 2
              (Some "Dessert") [9; 8] [] start) as [[df|e] w1] eqn:E;
    [| rewrite search_recipes_run in E; discriminate E].
  destruct (search_recipes (Connected pantry) 100 1200 50 30 20 5 None
              [9] [] start) as [[df'|e] w1'] eqn:E';
    [| rewrite search_recipes_run in E'; discriminate E'].
  exists df, w1, df', w1'. split; [reflexivity |]. split; [reflexivity |].
  split.
  { rewrite search_recipes_run in E. injection E as <- _. now left. }
  apply (relaxing_filters_keeps_rows pantry 100 700 50 30 20 2
           (Some "Dessert") [9; 8] [] 100 1200 5 None [9] [] start
           df w1 df' w1'); try assumption.
  - intros c [= <-]. reflexivity.
  - lia.
  - lia.
  - lia.
  - now right.
  - intros z [<- | []]. simpl. tauto.
  - now left.
Defined.

(** X5.  With the store up and a category made of ASCII letters, digits
    and spaces (or no category), allergen exclusion and diet-label
    inclusion act independently: a row is returned under both filters
    exactly when it is returned under the exclusion alone and under the
    inclusion alone. *)
Theorem allergen_and_label_filters_independent db
    cal_min cal_max carb_target fat_target prot_target margin category
    exclude_allergen_ids diet_label_ids w
    df_both w_both df_allergen w_allergen df_label w_label :
  plain_category category ->
  search_recipes (Connected db) cal_min cal_max carb_target fat_target
    prot_target margin category exclude_allergen_ids diet_label_ids w
  = (Returned df_both, w_both) ->
  search_recipes (Connected db) cal_min cal_max carb_target fat_target
    prot_target margin category exclude_allergen_ids [] w
  = (Returned df_allergen, w_allergen) ->
  search_recipes (Connected db) cal_min cal_max carb_target fat_target
    prot_target margin category [] diet_label_ids w
  = (Returned df_label, w_label) ->
  forall row,
    In row (rows df_both) <->
    In row (rows df_allergen) /\ In row (rows df_label).
Proof.
  intros Hq Hb Ha Hl row.
  rewrite (search_recipes_rows_connected _ _ _ _ _ _ _ _ _ _ _ _ _ _ Hq Hb).
  rewrite (search_recipes_rows_connected _ _ _ _ _ _ _ _ _ _ _ _ _ _ Hq Ha).
  rewrite (search_recipes_rows_connected _ _ _ _ _ _ _ _ _ _ _ _ _ _ Hq Hl).
  split.
  - intros (v & r & c & -> & Hj & H1 & H2 & H3 & H4 & H5 & H6 & H7).
    split; exists v, r, c; (split; [reflexivity |]); (split; [exact Hj |]).
    + refine (conj H1 (conj H2 (conj H3 (conj H4 (conj H5 (conj H6 _)))))).
      intros Hne. now destruct Hne.
    + refine (conj H1 (conj H2 (conj H3 (conj H4 (conj H5 (conj _ H7)))))).
      intros Hne. now destruct Hne.
  - intros [(v & r & c & -> & Hj & H1 & H2 & H3 & H4 & H5 & H6 & _)
            (v' & r' & c' & Hrow & _ & _ & _ & _ & _ & _ & _ & H7)].
    apply cells_of_row_inj in Hrow.
    exists v, r, c. split; [reflexivity |]. split; [exact Hj |].
    refine (conj H1 (conj H2 (conj H3 (conj H4 (conj H5 (conj H6 _)))))).
    rewrite Hrow. exact H7.
Qed.

Lemma allergen_and_label_filters_independent_witness :
  exists df_both w_both df_allergen w_allergen df_label w_label,
    search_recipes (Connected pantry) 100 700 50 30 20 5 None [5] [7] start
    = (Returned df_both, w_both) /\
    search_recipes (Connected pantry) 100 700 50 30 20 5 None [5] [] start
    = (Returned df_allergen, w_allergen) /\
    search_recipes (Connected pantry) 100 700 50 30 20 5 None [] [7] start
    = (Returned df_label, w_label) /\
    In (cells_of_row cake) (rows df_both) /\
    forall row,
      In row (rows df_both) <->
      In row (rows df_allergen) /\ In row (rows df_label).
Proof.
  destruct (search_recipes (Connected pantry) 100 700 50 30 20 5 None
              [5] [7] start) as [[d1|e] w1] eqn:E1;
    [| rewrite search_recipes_run in E1; discriminate E1].
  destruct (search_recipes (Connected pantry) 100 700 50 30 20 5 None
              [5] [] start) as [[d2|e] w2] eqn:E2;
    [| rewrite search_recipes_run in E2; discriminate E2].
  destruct (search_recipes (Connected pantry) 100 700 50 30 20 5 None
              [] [7] start) as [[d3|e] w3] eqn:E3;
    [| rewrite search_recipes_run in E3; discriminate E3].
  exists d1, w1, d2, w2, d3, w3.
  refine (conj eq_refl (conj eq_refl (conj eq_refl (conj _ _)))).
  { rewrite search_recipes_run in E1. injection E1 as <- _. now left. }
  apply (allergen_and_label_filters_independent pantry 100 700 50 30 20 5
           None [5] [7] start d1 w1 d2 w2 d3 w3); try assumption.
  discriminate.
Defined.

(* ================================================================= *)
(** * The results section as a whole *)



(* ================================================================= *)
(** * More about the presenter *)

(** ** The display projection on a frame without the columns *)

(** X7.  The display projection needs the eight raw columns: on a frame
    that lacks one of them (the empty frame of a failed query among
    them) the column selection raises KeyError before any object is
    made, which is why the page runs it only on a non-empty result. *)
Theorem display_df_needs_columns (np_round : nat -> Q -> Q) (np_int : Q -> Z)
    (results_df : positive) (df : DataFrame) (w : world) :
  heap w !! results_df = Some df ->
  indexes_of selection_labels (columns df) = None ->
  display_df np_round np_int results_df w
  = (Raised "KeyError: not in index", w).
Proof.
  intros Hr Hi. unfold display_df, getitem_list, bind, deref, lift.
  rewrite Hr. unfold frame_getitem_list.
  change ["name"; "calories"; "pct_carbs"; "pct_fat"; "pct_protein";
          "category_name"; "rating"; "url"] with selection_labels.
  now rewrite Hi.
Qed.

Lemma display_df_needs_columns_witness :
  let w := {| heap := {[ 1%positive := empty_frame ]}; page := [] |} in
  heap w !! 1%positive = Some empty_frame /\
  indexes_of selection_labels (columns empty_frame) = None /\
  display_df decimal_round decimal_int 1%positive w
  = (Raised "KeyError: not in index", w).
Proof.
  intros w.
  assert (H1 : heap w !! 1%positive = Some empty_frame)
    by apply lookup_singleton_eq.
  exact (conj H1 (conj eq_refl
           (display_df_needs_columns decimal_round decimal_int 1%positive
              empty_frame w H1 eq_refl))).
Defined.


(** ** Reference data and the ids of a selection *)

Lemma insert_by_name_perm {A} (key : A -> string) (x : A) (l : list A) :
  Permutation (insert_by_name key x l) (x :: l).
Proof.
  induction l as [|y l IH]; simpl; [reflexivity |].
  destruct (String.leb (key x) (key y)); [reflexivity |].
  rewrite IH. apply perm_swap.
Qed.

Lemma order_by_name_perm {A} (key : A -> string) (l : list A) :
  Permutation (order_by_name key l) l.
Proof.
  induction l as [|x l IH]; simpl; [reflexivity |].
  rewrite insert_by_name_perm. now constructor.
Qed.

(** X8.  A load of the category options gives the sentinel first, then
    every category name of the store, as often as the table holds it and
    nothing else; the function catches nothing, a failing store makes it
    raise. *)
Theorem get_categories_options (eng : engine) :
  match eng with
  | Connected db =>
      exists names,
        get_categories eng = Returned (all_categories :: names) /\
        Permutation names (map c_category_name (categories db))
  | Unavailable reason => get_categories eng = Raised reason
  end.
Proof.
  destruct eng as [db|reason]; [| reflexivity].
  eexists. split; [reflexivity |]. apply order_by_name_perm.
Qed.

(** X9.  A load of the allergens or of the diet labels gives every row of
    the table exactly once; neither function catches a failure of the
    store. *)
Theorem get_lookup_rows (eng : engine) (tables : lookups) :
  match eng with
  | Connected _ =>
      exists al dl,
        get_allergens eng tables = Returned al /\
        Permutation al (allergens tables) /\
        get_diet_labels eng tables = Returned dl /\
        Permutation dl (diet_labels tables)
  | Unavailable reason =>
      get_allergens eng tables = Raised reason /\
      get_diet_labels eng tables = Raised reason
  end.
Proof.
  destruct eng as [db|reason]; [| split; reflexivity].
  eexists _, _. repeat split; apply order_by_name_perm.
Qed.

Lemma isin_In (values : list string) (s : string) :
  isin values s = true <-> In s values.
Proof.
  unfold isin. rewrite existsb_exists. split.
  - intros [x [Hx He]]. apply String.eqb_eq in He. now subst.
  - intros H. exists s. split; [exact H | apply String.eqb_refl].
Qed.

Lemma isin_same (a b : list string) (s : string) :
  (forall x, In x a <-> In x b) -> isin a s = isin b s.
Proof.
  intros H. destruct (isin a s) eqn:Ea, (isin b s) eqn:Eb; try reflexivity.
  - apply isin_In, H, isin_In in Ea. congruence.
  - apply isin_In, H, isin_In in Eb. congruence.
Qed.

Lemma resolve_ids_same (df : list lookup_row) (a b : list string) :
  (forall x, In x a <-> In x b) -> resolve_ids df a = resolve_ids df b.
Proof.
  intros H. unfold resolve_ids.
  destruct a as [|x a], b as [|y b]; simpl truthy_list; try reflexivity.
  - destruct (proj2 (H y) (or_introl eq_refl)).
  - destruct (proj1 (H x) (or_introl eq_refl)).
  - f_equal. apply List.filter_ext. intros r. now apply isin_same.
Qed.

(** X10.  Only which names are selected counts, not the order in which
    they were picked nor a name picked twice: two selections with the
    same names resolve to the same id lists, and the search is the
    same. *)
Theorem selection_order_is_irrelevant (allergens_df diet_labels_df :
    list lookup_row) (exclude_allergens exclude_allergens'
    selected_diet_labels selected_diet_labels' : list string)
    eng cal_min cal_max carb_target fat_target prot_target margin category w :
  (forall x, In x exclude_allergens <-> In x exclude_allergens') ->
  (forall x, In x selected_diet_labels <-> In x selected_diet_labels') ->
  resolve_ids allergens_df exclude_allergens
  = resolve_ids allergens_df exclude_allergens' /\
  resolve_ids diet_labels_df selected_diet_labels
  = resolve_ids diet_labels_df selected_diet_labels' /\
  search_recipes eng cal_min cal_max carb_target fat_target prot_target
    margin category
    (resolve_ids allergens_df exclude_allergens)
    (resolve_ids diet_labels_df selected_diet_labels) w
  = search_recipes eng cal_min cal_max carb_target fat_target prot_target
      margin category
      (resolve_ids allergens_df exclude_allergens')
      (resolve_ids diet_labels_df selected_diet_labels') w.
Proof.
  intros Ha Hd.
  rewrite (resolve_ids_same allergens_df _ _ Ha).
  rewrite (resolve_ids_same diet_labels_df _ _ Hd).
  repeat split.
Qed.

Lemma selection_order_is_irrelevant_witness :
  let df := [ {| lookup_id := 4; lookup_name := "Gluten" |};
              {| lookup_id := 5; lookup_name := "Nuts" |};
              {| lookup_id := 6; lookup_name := "Soy" |} ] in
  resolve_ids df ["Soy"; "Gluten"] = [4; 6] /\
  resolve_ids df ["Soy"; "Gluten"] = resolve_ids df ["Gluten"; "Soy"; "Soy"].
Proof.
  intros df. split; [reflexivity |].
  apply (selection_order_is_irrelevant df df
           ["Soy"; "Gluten"] ["Gluten"; "Soy"; "Soy"] [] []
           (Connected pantry) 100 700 50 30 20 5 None start).
  - intros x. simpl. tauto.
  - tauto.
Defined.

Lemma filter_NoDup_map {A B} (f : A -> B) (p : A -> bool) (l : list A) :
  List.NoDup (map f l) -> List.NoDup (map f (List.filter p l)).
Proof.
  induction l as [|x l IH]; simpl; intros H; [constructor |].
  apply List.NoDup_cons_iff in H as [Hx Hl].
  destruct (p x); simpl; [| auto].
  apply List.NoDup_cons_iff. split; [| auto].
  intros Hin. apply Hx. apply in_map_iff in Hin as [y [Hy Hin]].
  apply List.filter_In in Hin as [Hin _]. apply in_map_iff. eauto.
Qed.

(** X11.  When the names of the loaded table are unique, a selection of
    offered names without repetition resolves to one id per selected
    name: the ids are those of table rows whose names are the selected
    names, each once. *)
Theorem resolve_ids_one_per_name (df : list lookup_row)
    (selected : list string) :
  List.NoDup (map lookup_name df) ->
  List.NoDup selected ->
  incl selected (map lookup_name df) ->
  exists picked,
    resolve_ids df selected = map lookup_id picked /\
    incl picked df /\
    Permutation (map lookup_name picked) selected.
Proof.
  intros Hdf Hsel Hincl.
  exists (List.filter (fun r => isin selected (lookup_name r)) df).
  split; [| split].
  - unfold resolve_ids. destruct selected as [|s sel]; [| reflexivity].
    simpl. clear. induction df as [|r df IH]; [reflexivity | exact IH].
  - intros r Hr. now apply List.filter_In in Hr as [Hr _].
  - apply Permutation.NoDup_Permutation.
    + now apply filter_NoDup_map.
    + exact Hsel.
    + intros s. rewrite in_map_iff. split.
      * intros [r [<- Hr]]. apply List.filter_In in Hr as [_ Hr].
        now apply isin_In.
      * intros Hs. destruct (proj1 (in_map_iff _ _ _) (Hincl s Hs))
          as [r [Hn Hr]].
        exists r. split; [exact Hn |]. apply List.filter_In.
        split; [exact Hr |]. apply isin_In. now rewrite Hn.
Qed.

Lemma resolve_ids_one_per_name_witness :
  let df := [ {| lookup_id := 4; lookup_name := "Gluten" |};
              {| lookup_id := 5; lookup_name := "Nuts" |};
              {| lookup_id := 6; lookup_name := "Soy" |} ] in
  exists picked,
    resolve_ids df ["Soy"; "Gluten"] = map lookup_id picked /\
    incl picked df /\
    Permutation (map lookup_name picked) ["Soy"; "Gluten"].
Proof.
  intros df. apply resolve_ids_one_per_name.
  - repeat constructor; simpl; intuition discriminate.
  - repeat constructor; simpl; intuition discriminate.
  - intros x [<- | [<- | []]]; simpl; tauto.
Defined.

(** ** The connection provider *)

(** X12.  The connection provider lets no exception out and never hands
    back an engine that failed the probe: either it returns a connected
    engine and leaves the page alone, or it shows one error that starts
    with [Database connection failed: ] and stops the script; a missing
    [db_url] secret is one of the failures. *)
Theorem get_database_connection_outcomes (secrets : gmap string string)
    (missing_secret : string -> string)
    (create_engine : string -> outcome engine) (w : world) :
  (exists db,
     get_database_connection secrets missing_secret create_engine w
     = (Continues (Connected db), w) /\
     exists db_url, secrets !! "db_url" = Some db_url /\
                    create_engine db_url = Returned (Connected db)) \/
  (exists e,
     get_database_connection secrets missing_secret create_engine w
     = (Stops,
        {| heap := heap w;
           page := page w ++
                   [st_error ("Database connection failed: " +:+ e)] |}) /\
     (secrets !! "db_url" = None -> e = missing_secret "db_url")).
Proof.
  unfold get_database_connection, secret.
  destruct (secrets !! "db_url") as [db_url|] eqn:Es.
  - destruct (create_engine db_url) as [[db|reason]|e] eqn:Ec; simpl.
    + left. exists db. split; [reflexivity |]. now exists db_url.
    + right. exists reason. split; [reflexivity | discriminate].
    + right. exists e. split; [reflexivity | discriminate].
  - right. exists (missing_secret "db_url"). split; reflexivity.
Qed.

Lemma get_database_connection_outcomes_witness :
  get_database_connection ∅ (fun key => "no secret " +:+ key)
    (fun _ => Returned (Connected pantry)) start
  = (Stops,
     {| heap := ∅;
        page := [st_error "Database connection failed: no secret db_url"] |}).
Proof.
  destruct (get_database_connection_outcomes ∅
              (fun key => "no secret " +:+ key)
              (fun _ => Returned (Connected pantry)) start)
    as [(db & H & db_url & Hs & _) | (e & H & He)].
  - rewrite lookup_empty in Hs. discriminate.
  - rewrite (He (lookup_empty _)) in H. exact H.
Defined.
(* ================================================================= *)
(** * Plain categories, and the display projection *)

Lemma category_matches_lower db c (a b : string) :
  sql_lower db a = sql_lower db b ->
  category_matches db c a = category_matches db c b.
Proof. intros H. destruct c; simpl; [now rewrite H | reflexivity]. Qed.

Lemma selected_category_selected (c : string) :
  c <> "" -> c <> all_categories -> selected_category (Some c) = Some c.
Proof. intros H1 H2. now apply selected_category_Some. Qed.

(** X14.  With the store up, two category strings made of ASCII letters,
    digits and spaces, not empty and not the sentinel, that LOWER of the
    store maps to the same string (as [Dessert] and [dessert]) give the
    same result: the same rows in the same order, and the same page. *)
Theorem plain_category_case_insensitive db cal_min cal_max carb_target
    fat_target prot_target margin (c1 c2 : string) exclude_allergen_ids
    diet_label_ids w :
  plain c1 = true -> plain c2 = true ->
  c1 <> "" -> c2 <> "" ->
  c1 <> all_categories -> c2 <> all_categories ->
  sql_lower db c1 = sql_lower db c2 ->
  search_recipes (Connected db) cal_min cal_max carb_target fat_target
    prot_target margin (Some c1) exclude_allergen_ids diet_label_ids w
  = search_recipes (Connected db) cal_min cal_max carb_target fat_target
      prot_target margin (Some c2) exclude_allergen_ids diet_label_ids w.
Proof.
  intros Hp1 Hp2 Hn1 Hn2 Hs1 Hs2 Hl.
  rewrite !search_recipes_connected_run
    by (intros c [= <-]; assumption).
  assert (E : List.filter
                (where_clause
                   (statement_of cal_min cal_max carb_target fat_target
                      prot_target margin (Some c1) exclude_allergen_ids
                      diet_label_ids) db) (from_clause db)
              = List.filter
                  (where_clause
                     (statement_of cal_min cal_max carb_target fat_target
                        prot_target margin (Some c2) exclude_allergen_ids
                        diet_label_ids) db) (from_clause db)).
  { apply List.filter_ext. intros [[v r] c]. unfold where_clause.
    cbn [statement_of s_calories s_carbs s_fat s_protein s_category
         s_disjunct s_not_allergens s_any_label].
    rewrite !selected_category_selected by assumption.
    now rewrite (category_matches_lower db c c1 c2 Hl). }
  unfold execute. now rewrite E.
Qed.

Lemma plain_category_case_insensitive_witness :
  search_recipes (Connected pantry) 100 700 50 30 20 5 (Some "Dessert")
    [] [] start
  = search_recipes (Connected pantry) 100 700 50 30 20 5 (Some "dessert")
      [] [] start /\
  search_recipes (Connected pantry) 100 700 50 30 20 5 (Some "dessert")
    [] [] start
  = (Returned (frame_of_rows [apple_pie]), start).
Proof.
  split; [| reflexivity].
  apply (plain_category_case_insensitive pantry 100 700 50 30 20 5
           "Dessert" "dessert" [] [] start);
    try reflexivity; discriminate.
Defined.

(** X15.  With the store up and a category made of ASCII letters, digits
    and spaces (or no category), the bounds are applied as they are
    given: every returned row has its calories within
    [cal_min, cal_max] and its percentages within
    [target - margin, target + margin], whatever the sign or size of
    these numbers; so with [cal_min = cal_max] every returned row has
    exactly that calorie value, and with [margin = 0] its percentages are
    exactly the targets. *)
Theorem plain_category_exact_bounds db cal_min cal_max carb_target
    fat_target prot_target margin category exclude_allergen_ids
    diet_label_ids w df w' :
  plain_category category ->
  search_recipes (Connected db) cal_min cal_max carb_target fat_target
    prot_target margin category exclude_allergen_ids diet_label_ids w
  = (Returned df, w') ->
  forall row, In row (rows df) ->
    exists r, row = cells_of_row r /\
      within (calories r) cal_min cal_max /\
      within (pct_carbs r) (carb_target - margin) (carb_target + margin) /\
      within (pct_fat r) (fat_target - margin) (fat_target + margin) /\
      within (pct_protein r) (prot_target - margin) (prot_target + margin) /\
      (cal_min = cal_max -> (calories r == inject_Z cal_min)%Q) /\
      (margin = 0 ->
         (pct_carbs r == inject_Z carb_target)%Q /\
         (pct_fat r == inject_Z fat_target)%Q /\
         (pct_protein r == inject_Z prot_target)%Q).
Proof.
  intros Hq Hs row Hrow.
  apply (search_recipes_rows_connected _ _ _ _ _ _ _ _ _ _ _ _ _ _ Hq Hs)
    in Hrow as (v & r & c & -> & _ & Hcal & Hc & Hf & Hp & _).
  eexists. split; [reflexivity |].
  refine (conj Hcal (conj Hc (conj Hf (conj Hp (conj _ _))))).
  - intros ->. destruct Hcal. now apply Qle_antisym.
  - intros ->. rewrite Z.sub_0_r, Z.add_0_r in Hc, Hf, Hp.
    destruct Hc, Hf, Hp. repeat split; now apply Qle_antisym.
Qed.

Lemma plain_category_exact_bounds_witness :
  search_recipes (Connected pantry) 100 100 50 30 20 0 None [] [] start
  = (Returned (frame_of_rows [soup]), start) /\
  forall row, In row (rows (frame_of_rows [soup])) ->
    exists r, row = cells_of_row r /\
      (calories r == 100)%Q /\ (pct_carbs r == 50)%Q /\
      (pct_fat r == 30)%Q /\ (pct_protein r == 20)%Q.
Proof.
  assert (Hs : search_recipes (Connected pantry) 100 100 50 30 20 0 None
                 [] [] start
               = (Returned (frame_of_rows [soup]), start)) by reflexivity.
  split; [exact Hs |].
  intros row Hrow.
  destruct (plain_category_exact_bounds pantry 100 100 50 30 20 0 None [] []
              start (frame_of_rows [soup]) start
              ltac:(discriminate) Hs row Hrow)
    as (r & Hr & _ & _ & _ & _ & Hc & Hm).
  exists r. split; [exact Hr |].
  destruct (Hm eq_refl) as (H1 & H2 & H3).
  exact (conj (Hc eq_refl) (conj H1 (conj H2 H3))).
Defined.

(** X16.  On the frame of a result in which at least one row has a
    rating, the display projection succeeds, leaves the page alone, and
    holds, row for row and under the eight display labels: the name, the
    calories rounded to 0 decimals and cast to an integer, pct_carbs,
    pct_fat and pct_protein rounded to 1 decimal, the category, the
    rating rounded to 2 decimals (a missing rating stays missing), and
    the URL. *)
Theorem display_df_projection (np_round : nat -> Q -> Q) (np_int : Q -> Z)
    (results_df : positive) (rs : list result_row) (w : world) :
  heap w !! results_df = Some (frame_of_rows rs) ->
  some_rating rs = true ->
  exists d w',
    display_df np_round np_int results_df w = (Returned d, w') /\
    page w' = page w /\
    heap w' !! d = Some
      {| columns := ["Recipe Name"; "Calories"; "Carbs %"; "Fat %";
                     "Protein %"; "Category"; "Rating"; "URL"];
         rows := map (fun r =>
           [VStr (name r);
            VInt (np_int (np_round 0%nat (calories r)));
            VFloat (np_round 1%nat (pct_carbs r));
            VFloat (np_round 1%nat (pct_fat r));
            VFloat (np_round 1%nat (pct_protein r));
            match category_name r with Some s => VStr s | None => VNaN end;
            match rating r with
            | Some q => VFloat (np_round 2%nat q)
            | None => VNaN
            end;
            VStr (url r)]) rs |}.
Proof.
  intros Hr Hrat.
  pose proof (display_df_run np_round np_int results_df rs w Hr
                (some_rating_nonempty rs Hrat)) as Hrun.
  simpl in Hrun. rewrite Hrat in Hrun.
  eexists _, _. split; [exact Hrun |]. split; [reflexivity |].
  simpl. rewrite lookup_insert_eq. f_equal. unfold display_frame. f_equal.
  apply map_ext. intros r. unfold display_cells.
  now destruct (category_name r), (rating r).
Qed.

Lemma display_df_projection_witness :
  let w := {| heap := {[ 1%positive := frame_of_rows [apple_pie] ]};
              page := [] |} in
  exists d w',
    display_df decimal_round decimal_int 1%positive w = (Returned d, w') /\
    heap w' !! d = Some
      {| columns := ["Recipe Name"; "Calories"; "Carbs %"; "Fat %";
                     "Protein %"; "Category"; "Rating"; "URL"];
         rows := [[VStr "Apple pie"; VInt 650; VFloat 52; VFloat 28;
                   VFloat 20; VStr "Dessert"; VFloat (457 # 100);
                   VStr "https://example.org/1"]] |}.
Proof.
  intros w.
  destruct (display_df_projection decimal_round decimal_int 1%positive
              [apple_pie] w) as (d & w' & Hrun & _ & Hd);
    [apply lookup_singleton_eq | reflexivity |].
  exists d, w'. split; [exact Hrun | exact Hd].
Defined.

